(** * ios-remote: session, input dispatch and stream control

    A shallow embedding of the backend of the ios-remote server
    ([src/backend/server.js], [src/backend/wda-client.js],
    [src/backend/ffmpeg-stream.js], [src/backend/webrtc-stream.js]) and the
    properties its design document states about it.

    Conventions of the embedding.
    - JavaScript strings are [string]s, sequences of bytes: ASCII wherever
      the backend inspects them (whitespace is the ASCII part of the
      ECMAScript white-space set), UTF-8 inside the scripts it only passes
      on.
    - A finite JavaScript number is a rational [Q]: [Math.round] and the
      truthiness test are exact on rationals.  Rendering a number inside a
      template literal is the built-in [Number::toString], a field of the
      environment.
    - The operating system is an environment [Env]: a deterministic machine
      with its own state that answers [spawn] and [execSync].  Every command
      handed to it is also appended to a trace, so that the absence of a boot
      command is a statement about the trace.
    - An [async] method is run to completion; a rejected promise or a thrown
      [Error] is the [Throw] result carrying the error's [message].
    - [console.log] output is not part of the model. *)

From Stdlib Require Import String Ascii List ZArith QArith Qround Bool Lia.
From Stdlib Require Import DecimalString Qabs.
Import ListNotations.
Open Scope string_scope.

(** ** JavaScript built-ins used by the backend *)

Module JS.

Definition dquote : ascii := ascii_of_nat 34.
Definition newline : ascii := ascii_of_nat 10.
Definition DQ : string := String dquote EmptyString.
Definition NL : string := String newline EmptyString.

(** ASCII members of ECMAScript WhiteSpace and LineTerminator: tab, line
    feed, vertical tab, form feed, carriage return, space. *)
Definition is_ws (c : ascii) : bool :=
  let n := nat_of_ascii c in
  ((9 <=? n) && (n <=? 13))%nat || (n =? 32)%nat.

(** Characters the regular-expression atom [.] does not match. *)
Definition is_line_terminator (c : ascii) : bool :=
  let n := nat_of_ascii c in
  (n =? 10)%nat || (n =? 13)%nat.

(** [s.startsWith(p)] *)
Definition startsWith (s p : string) : bool := String.prefix p s.

(** [s.includes(sub)] *)
Fixpoint includes (s sub : string) : bool :=
  String.prefix sub s ||
  match s with
  | EmptyString => false
  | String _ s' => includes s' sub
  end.

Definition rev_string (s : string) : string :=
  string_of_list_ascii (rev (list_ascii_of_string s)).

(** [s.endsWith(p)] *)
Definition endsWith (s p : string) : bool :=
  String.prefix (rev_string p) (rev_string s).

Fixpoint trimStart (s : string) : string :=
  match s with
  | EmptyString => EmptyString
  | String c s' => if is_ws c then trimStart s' else s
  end.

(** [s.trim()] *)
Definition trim (s : string) : string :=
  rev_string (trimStart (rev_string (trimStart s))).

(** [s.split(NL)]: never empty, the empty string splits into one empty
    line. *)
Fixpoint split_lines (s : string) : list string :=
  match s with
  | EmptyString => [EmptyString]
  | String c s' =>
      if Ascii.eqb c newline then EmptyString :: split_lines s'
      else match split_lines s' with
           | [] => [String c EmptyString]
           | l :: ls => String c l :: ls
           end
  end.

(** A string is falsy exactly when it is empty. *)
Definition str_truthy (s : string) : bool :=
  match s with EmptyString => false | _ => true end.

(** [a || b] on strings. *)
Definition str_or (a b : string) : string :=
  if str_truthy a then a else b.

(** Longest prefix of characters satisfying [p], and the rest. *)
Fixpoint span (p : ascii -> bool) (s : string) : string * string :=
  match s with
  | EmptyString => (EmptyString, EmptyString)
  | String c s' =>
      if p c then let (a, b) := span p s' in (String c a, b)
      else (EmptyString, s)
  end.

Definition not_rparen (c : ascii) : bool := negb (Ascii.eqb c ")").

(** The part [\s+\(([^)]+)\)\s+\(([^)]+)\)$] of the device-line pattern,
    matched at the beginning of [s].  Each quantifier is followed by a
    character outside its class, so the greedy match is the only one. *)
Definition match_device_tail (s : string) : option (string * string) :=
  match span is_ws s with
  | (String _ _, String "(" r2) =>
      match span not_rparen r2 with
      | (String c2 g2, String ")" r4) =>
          match span is_ws r4 with
          | (String _ _, String "(" r6) =>
              match span not_rparen r6 with
              | (String c3 g3, String ")" EmptyString) =>
                  Some (String c2 g2, String c3 g3)
              | _ => None
              end
          | _ => None
          end
      | _ => None
      end
  | _ => None
  end.

(** [line.match(/^(.+?)\s+\(([^)]+)\)\s+\(([^)]+)\)$/)]: the lazy first
    group is the shortest non-empty run of [.] characters after which the
    tail matches.  The result is the three captured groups. *)
Fixpoint match_device_line (s : string) : option (string * string * string) :=
  match s with
  | EmptyString => None
  | String c s' =>
      if is_line_terminator c then None
      else match match_device_tail s' with
           | Some (udid, st) => Some (String c EmptyString, udid, st)
           | None =>
               match match_device_line s' with
               | Some (nm, udid, st) => Some (String c nm, udid, st)
               | None => None
               end
           end
  end.

Fixpoint drop (n : nat) (s : string) : string :=
  match n, s with
  | O, _ => s
  | S k, EmptyString => EmptyString
  | S k, String _ s' => drop k s'
  end.

(** Length of the match of [/--\s*|\s*--/] at the beginning of [s]. *)
Definition dashes_match_len (s : string) : option nat :=
  if String.prefix "--" s
  then Some (2 + String.length (fst (span is_ws (drop 2 s))))%nat
  else let n := String.length (fst (span is_ws s)) in
       if String.prefix "--" (drop n s) then Some (n + 2)%nat else None.

(** [s.replace(/--\s*|\s*--/g, EMPTY)]; [skip] counts the characters of
    the current match still to be removed. *)
Fixpoint strip_dashes_from (skip : nat) (s : string) : string :=
  match s with
  | EmptyString => EmptyString
  | String c s' =>
      match skip with
      | S k => strip_dashes_from k s'
      | O =>
          match dashes_match_len s with
          | Some (S k) => strip_dashes_from k s'
          | _ => String c (strip_dashes_from 0 s')
          end
      end
  end.

Definition strip_dashes (s : string) : string := strip_dashes_from 0 s.

(** [Math.round]: nearest integer, ties towards plus infinity. *)
Definition Math_round (q : Q) : Z := Qfloor (q + (1 # 2)).

(** A numeric field of a message payload: a number, or absent. *)
Definition field := option Q.

(** [!v] on such a field: [undefined] and zero are falsy. *)
Definition falsy (v : field) : bool :=
  match v with
  | None => true
  | Some q => Qeq_bool q 0
  end.

(** Decimal rendering of an integer (exit codes). *)
Definition Z_to_string (z : Z) : string :=
  NilZero.string_of_int (Z.to_int z).

End JS.

Import JS.

(** ** The environment: operating system and language run time *)

(** Outcome of a child process started with [spawn]: the [close] event with
    its exit code ([null] when a signal ended the process) and the collected
    output, or the [error] event. *)
Inductive SpawnResult : Type :=
| Closed (code : option Z) (stdout stderr : string)
| SpawnError (message : string).

(** [execSync] returns the standard output ([inl]) or throws an error with a
    message ([inr]). *)
Class Env : Type := {
  World : Type;
  spawn : string -> list string -> World -> SpawnResult * World;
  execSync : string -> World -> (string + string) * World;
  Number_toString : Q -> string
}.

(** Commands handed to the operating system. *)
Inductive Event : Type :=
| EvSpawn (command : string) (args : list string)
| EvExecSync (command : string)
| EvKill (pid : nat).

(** ** Data model *)

(** An entry of [WDAClient.devices]. *)
Record Device : Type := {
  id : string;
  name : string;
  type : string;
  status : string;
  os : string
}.

(** The fields of a [WDAClient] object. *)
Record WDAClient : Type := {
  isConnected : bool;
  currentDevice : option string;
  devices : list Device
}.

(** [new WDAClient()] *)
Definition WDAClient_new : WDAClient :=
  {| isConnected := false; currentDevice := None; devices := [] |}.

Definition SocketId := nat.
Definition TimerId := nat.
Definition ProcessId := nat.

(** The fields of an [FFmpegStream] object; [screenshotInterval] is created
    by [startScreenshotLoop] and is [undefined] before. *)
Record FFmpegStream : Type := {
  ffmpegProcess : option ProcessId;
  isStreaming : bool;
  currentSocket : option SocketId;
  simulatorId : option string;
  screenshotInterval : option TimerId
}.

(** [new FFmpegStream()] *)
Definition FFmpegStream_new : FFmpegStream :=
  {| ffmpegProcess := None; isStreaming := false; currentSocket := None;
     simulatorId := None; screenshotInterval := None |}.

(** An interval timer of the run time: its handle and its period in ms. *)
Record Timer : Type := { handle : TimerId; period : Z }.

(** Results returned by the input methods of [WDAClient]. *)
Record TapResult : Type := {
  tap_success : bool; tap_x : Q; tap_y : Q; tap_device : option string
}.

Record SwipeResult : Type := {
  swipe_success : bool;
  swipe_startX : Q; swipe_startY : Q; swipe_endX : Q; swipe_endY : Q;
  swipe_duration : Q; swipe_device : option string
}.

Record KeysResult : Type := {
  keys_success : bool; keys_text : string; keys_device : option string
}.

Inductive InputResult : Type :=
| ResTap (r : TapResult)
| ResSwipe (r : SwipeResult)
| ResKeys (r : KeysResult).

(** Messages the server emits on a client socket. *)
Inductive Emit : Type :=
| simulator_status (status : string) (deviceId : option string)
| input_result_ok (kind : string) (result : InputResult)
| input_result_fail (kind : string) (error : string)
| stream_status (status : string)
| error_msg (message : string) (error : string)
| request_screenshot.

(** What the process sends out: a message on a socket, or an event of the
    stream object's own emitter. *)
Inductive Output : Type :=
| ToClient (socket : SocketId) (m : Emit)
| StreamEvent (event : string).

(** The server process: the module-level objects of [server.js], the armed
    interval timers, the sockets that are currently connected, the
    environment's state, and what has been sent and executed so far. *)
Record Sys {E : Env} : Type := {
  wdaClient : WDAClient;
  ffmpegStream : FFmpegStream;
  timers : list Timer;
  next_handle : TimerId;
  connected : list SocketId;
  world : World;
  trace : list Event;
  outbox : list Output
}.

(** ** A state-and-exception monad for the methods *)

Inductive Result (A : Type) : Type :=
| Ok (a : A)
| Throw (message : string).

Arguments Ok {A} a.
Arguments Throw {A} message.

Section Backend.

Context {E : Env}.

Definition M (A : Type) : Type := Sys -> Result A * Sys.

Definition ret {A} (a : A) : M A := fun s => (Ok a, s).

Definition throw {A} (message : string) : M A := fun s => (Throw message, s).

Definition bind {A B} (m : M A) (k : A -> M B) : M B :=
  fun s =>
    match m s with
    | (Ok a, s') => k a s'
    | (Throw e, s') => (Throw e, s')
    end.

(** [try { m } catch (error) { h error.message }] *)
Definition try_catch {A} (m : M A) (h : string -> M A) : M A :=
  fun s =>
    match m s with
    | (Ok a, s') => (Ok a, s')
    | (Throw e, s') => h e s'
    end.

Definition get : M Sys := fun s => (Ok s, s).

Definition modify (f : Sys -> Sys) : M unit := fun s => (Ok tt, f s).

Notation "x <- m ;; k" := (bind m (fun x => k))
  (at level 61, m at next level, right associativity).
Notation "m ;;; k" := (bind m (fun _ => k))
  (at level 61, right associativity).

(** *** Field updates *)

Definition set_wdaClient (c : WDAClient) (s : Sys) : Sys :=
  {| wdaClient := c; ffmpegStream := ffmpegStream s; timers := timers s;
     next_handle := next_handle s; connected := connected s;
     world := world s; trace := trace s; outbox := outbox s |}.

Definition set_ffmpegStream (f : FFmpegStream) (s : Sys) : Sys :=
  {| wdaClient := wdaClient s; ffmpegStream := f; timers := timers s;
     next_handle := next_handle s; connected := connected s;
     world := world s; trace := trace s; outbox := outbox s |}.

Definition set_timers (t : list Timer) (n : TimerId) (s : Sys) : Sys :=
  {| wdaClient := wdaClient s; ffmpegStream := ffmpegStream s; timers := t;
     next_handle := n; connected := connected s;
     world := world s; trace := trace s; outbox := outbox s |}.

Definition record (w : World) (ev : Event) (s : Sys) : Sys :=
  {| wdaClient := wdaClient s; ffmpegStream := ffmpegStream s;
     timers := timers s; next_handle := next_handle s;
     connected := connected s;
     world := w; trace := (trace s ++ [ev])%list; outbox := outbox s |}.

Definition send (o : Output) (s : Sys) : Sys :=
  {| wdaClient := wdaClient s; ffmpegStream := ffmpegStream s;
     timers := timers s; next_handle := next_handle s;
     connected := connected s;
     world := world s; trace := trace s;
     outbox := (outbox s ++ [o])%list |}.

Definition emit (socket : SocketId) (m : Emit) : M unit :=
  modify (send (ToClient socket m)).

(** The process right after [server.js] has created its objects. *)
Definition boot_state (w : World) (clients : list SocketId) : Sys :=
  {| wdaClient := WDAClient_new; ffmpegStream := FFmpegStream_new;
     timers := []; next_handle := O; connected := clients;
     world := w; trace := []; outbox := [] |}.

(** ** [wda-client.js] *)

(** The command line [runCommand] chooses for its argument vector.  Every
    caller passes the arguments the chosen branch reads. *)
Definition command_line (args : list string) : string * list string :=
  let a0 := nth 0 args EmptyString in
  let a1 := nth 1 args EmptyString in
  let a2 := nth 2 args EmptyString in
  if String.eqb a0 "list-targets" then
    ("xcrun", ["simctl"; "list"; "devices"; "available"])
  else if String.eqb a0 "list-devices" then
    ("xcrun", ["devicectl"; "list"; "devices"])
  else if String.eqb a0 "version" then
    ("xcodebuild", ["-version"])
  else if String.eqb a0 "boot" then
    ("xcrun", ["simctl"; "boot"; a1])
  else if String.eqb a0 "getenv" then
    ("xcrun", ["simctl"; "getenv"; a1; a2])
  else if String.eqb a0 "screenshot" then
    ("xcrun", ["simctl"; "io"; a1; "screenshot"; a2])
  else
    ("xcrun", ["simctl"; "list"]).

(** [`${code}`] for an exit code. *)
Definition render_code (code : option Z) : string :=
  match code with
  | Some z => Z_to_string z
  | None => "null"
  end.

(** [runCommand(args)]: resolves with the trimmed standard output when the
    child exits with code 0, rejects otherwise. *)
Definition runCommand (args : list string) : M string :=
  fun s =>
    let (command, commandArgs) := command_line args in
    let (r, w') := spawn command commandArgs (world s) in
    let s' := record w' (EvSpawn command commandArgs) s in
    match r with
    | Closed (Some 0%Z) stdout _ => (Ok (trim stdout), s')
    | Closed code _ stderr =>
        (Throw ("iOS command failed (" ++ render_code code ++ "): "
                ++ str_or stderr "Unknown error"), s')
    | SpawnError message =>
        (Throw ("Failed to execute iOS command: " ++ message), s')
    end.

(** [execSync(command)] with the command recorded in the trace. *)
Definition exec (command : string) : M string :=
  fun s =>
    let (r, w') := execSync command (world s) in
    let s' := record w' (EvExecSync command) s in
    match r with
    | inl stdout => (Ok stdout, s')
    | inr message => (Throw message, s')
    end.

(** [checkXcode()] *)
Definition checkXcode : M bool :=
  try_catch (_ <- runCommand ["version"] ;; ret true)
            (fun _ => ret false).

(** The body of the [forEach] callback of [listDevices]: the devices
    pushed so far and [currentOS], updated for one line. *)
Definition parse_line (acc : list Device * string) (line : string)
  : list Device * string :=
  let (devs, currentOS) := acc in
  let line := trim line in
  if startsWith line "--" && includes line "iOS" && endsWith line "--"
  then (devs, trim (strip_dashes line))
  else if includes line "(" && includes line ")"
          && negb (startsWith line "==")
  then match match_device_line line with
       | Some (nm, udid, st) =>
           ((devs ++ [{| id := trim udid; name := trim nm;
                         type := "Simulator"; status := trim st;
                         os := currentOS |}])%list, currentOS)
       | None => acc
       end
  else acc.

Definition parse_devices (result : string) : list Device :=
  fst (fold_left parse_line (split_lines (trim result)) ([], EmptyString)).

Definition set_devices (ds : list Device) : M unit :=
  modify (fun s =>
    set_wdaClient {| isConnected := isConnected (wdaClient s);
                     currentDevice := currentDevice (wdaClient s);
                     devices := ds |} s).

(** [listDevices()]: a failure of the listing command is swallowed and an
    empty list returned, [this.devices] keeping its old value. *)
Definition listDevices : M (list Device) :=
  try_catch
    (result <- runCommand ["list-targets"] ;;
     let ds := parse_devices result in
     set_devices ds ;;;
     ret ds)
    (fun _ => ret []).

Definition is_booted_simulator (d : Device) : bool :=
  String.eqb (type d) "Simulator" && String.eqb (status d) "Booted".

Definition is_simulator (d : Device) : bool :=
  String.eqb (type d) "Simulator".

(** [!deviceId] for the optional argument of [connectToDevice]. *)
Definition device_truthy (d : option string) : bool :=
  match d with
  | Some s => str_truthy s
  | None => false
  end.

Definition set_connection (b : bool) (d : option string) : M unit :=
  modify (fun s =>
    set_wdaClient {| isConnected := b; currentDevice := d;
                     devices := devices (wdaClient s) |} s).

(** The first half of [connectToDevice]: the device to connect to. *)
Definition select_device (deviceId : option string) : M string :=
  match deviceId with
  | Some (String c r) => ret (String c r)
  | _ =>
      ds <- listDevices ;;
      match find is_booted_simulator ds with
      | None =>
          match find is_simulator ds with
          | Some firstSim =>
              _ <- runCommand ["boot"; id firstSim] ;;
              ret (id firstSim)
          | None =>
              throw "No iOS simulator found. Please start a simulator first."
          end
      | Some simulator => ret (id simulator)
      end
  end.

(** [connectToDevice(deviceId = null)] *)
Definition connectToDevice (deviceId : option string) : M string :=
  try_catch
    (dev <- select_device deviceId ;;
     result <- runCommand ["list-targets"] ;;
     match find (fun line => includes line dev) (split_lines result) with
     | Some deviceLine =>
         if includes deviceLine "Booted"
         then set_connection true (Some dev) ;;; ret dev
         else throw ("Device " ++ dev ++ " is not booted")
     | None => throw ("Device " ++ dev ++ " is not booted")
     end)
    (fun error => set_connection false None ;;; throw error).

(** [disconnect()] *)
Definition disconnect : M unit := set_connection false None.

(** [!this.isConnected || !this.currentDevice] *)
Definition needs_connect (c : WDAClient) : bool :=
  negb (isConnected c) || negb (device_truthy (currentDevice c)).

(** The guard that opens [tap], [swipe] and [sendKeys]. *)
Definition ensure_connected : M unit :=
  s <- get ;;
  if needs_connect (wdaClient s)
  then _ <- connectToDevice None ;; ret tt
  else ret tt.

(** [`${this.currentDevice}`] *)
Definition render_device (d : option string) : string :=
  match d with
  | Some s => s
  | None => "null"
  end.

Definition this_device : M string :=
  s <- get ;; ret (render_device (currentDevice (wdaClient s))).

(** [`${Math.round(v)}`] *)
Definition rnd (v : Q) : string := Number_toString (inject_Z (Math_round v)).

(** *** Input methods *)

(** The AppleScript of the third attempt of [tap], which scales the rounded
    coordinates from a 315 by 560 canvas to the Simulator window. *)
Definition tap_script_scaled (x y : Q) : string :=
  "
              tell application " ++ DQ ++ "System Events" ++ DQ ++ "
                tell process " ++ DQ ++ "Simulator" ++ DQ ++ "
                  -- Get the Simulator window info
                  set windowList to windows
                  set windowCount to count of windowList
                  
                  if windowCount > 0 then
                    set firstWindow to item 1 of windowList
                    set windowPos to position of firstWindow
                    set windowSize to size of firstWindow
                    
                    -- Web interface dimensions (your frontend canvas)
                    set webWidth to 315
                    set webHeight to 560
                    
                    -- Simulator content area (typical iPhone simulator dimensions)
                    -- The simulator window has borders and UI elements, so we need to account for that
                    set simContentWidth to (item 1 of windowSize) - 40  -- Account for window borders
                    set simContentHeight to (item 2 of windowSize) - 80  -- Account for title bar and bottom UI
                    
                    -- Calculate the content area position (center of window)
                    set contentStartX to (item 1 of windowPos) + 20  -- Left border offset
                    set contentStartY to (item 2 of windowPos) + 40  -- Top border offset
                    
                    -- Map web coordinates to simulator coordinates
                    -- This maps (0,0) in web to (contentStartX, contentStartY) in simulator
                    -- And maps (315,560) in web to (contentStartX + simContentWidth, contentStartY + simContentHeight)
                    set scaleX to (simContentWidth / webWidth)
                    set scaleY to (simContentHeight / webHeight)
                    
                    set adjustedX to contentStartX + (" ++ rnd x ++ " * scaleX)
                    set adjustedY to contentStartY + (" ++ rnd y ++ " * scaleY)
                    
                    -- Log the coordinate transformation for debugging
                    log " ++ DQ ++ "Web coordinates: (" ++ rnd x ++ ", " ++ rnd y ++ ")" ++ DQ ++ "
                    log " ++ DQ ++ "Window position: " ++ DQ ++ " & windowPos
                    log " ++ DQ ++ "Window size: " ++ DQ ++ " & windowSize
                    log " ++ DQ ++ "Content area: " ++ DQ ++ " & simContentWidth & " ++ DQ ++ "x" ++ DQ ++ " & simContentHeight
                    log " ++ DQ ++ "Content start: (" ++ DQ ++ " & contentStartX & " ++ DQ ++ ", " ++ DQ ++ " & contentStartY & " ++ DQ ++ ")" ++ DQ ++ "
                    log " ++ DQ ++ "Scale factors: (" ++ DQ ++ " & scaleX & " ++ DQ ++ ", " ++ DQ ++ " & scaleY & " ++ DQ ++ ")" ++ DQ ++ "
                    log " ++ DQ ++ "Final coordinates: (" ++ DQ ++ " & adjustedX & " ++ DQ ++ ", " ++ DQ ++ " & adjustedY & " ++ DQ ++ ")" ++ DQ ++ "
                    
                    -- Click at the calculated coordinates
                    click at {adjustedX, adjustedY}
                  else
                    log " ++ DQ ++ "No Simulator windows found" ++ DQ ++ "
                    error " ++ DQ ++ "No Simulator windows available" ++ DQ ++ "
                  end if
                end tell
              end tell
            ".

(** The AppleScript of the fourth attempt of [tap]: three test clicks. *)
Definition tap_script_debug (x y : Q) : string :=
  "
              tell application " ++ DQ ++ "System Events" ++ DQ ++ "
                tell process " ++ DQ ++ "Simulator" ++ DQ ++ "
                  -- Enhanced debugging: Get detailed window info
                  set windowList to windows
                  set windowCount to count of windowList
                  log " ++ DQ ++ "🔍 Found " ++ DQ ++ " & windowCount & " ++ DQ ++ " Simulator windows" ++ DQ ++ "
                  
                  if windowCount > 0 then
                    set firstWindow to item 1 of windowList
                    set windowPos to position of firstWindow
                    set windowSize to size of firstWindow
                    
                    log " ++ DQ ++ "📍 Window position: " ++ DQ ++ " & windowPos
                    log " ++ DQ ++ "📏 Window size: " ++ DQ ++ " & windowSize
                    
                    -- Test click at different coordinate systems
                    log " ++ DQ ++ "🧪 Testing coordinate systems..." ++ DQ ++ "
                    
                    -- Test 1: Raw coordinates (likely wrong)
                    log " ++ DQ ++ "🧪 Test 1: Raw coordinates (" ++ rnd x ++ ", " ++ rnd y ++ ")" ++ DQ ++ "
                    click at {" ++ rnd x ++ ", " ++ rnd y ++ "}
                    
                    delay 0.5
                    
                    -- Test 2: Window-relative coordinates
                    set testX to (item 1 of windowPos) + " ++ rnd x ++ "
                    set testY to (item 2 of windowPos) + " ++ rnd y ++ "
                    log " ++ DQ ++ "🧪 Test 2: Window-relative (" ++ DQ ++ " & testX & " ++ DQ ++ ", " ++ DQ ++ " & testY & " ++ DQ ++ ")" ++ DQ ++ "
                    click at {testX, testY}
                    
                    delay 0.5
                    
                    -- Test 3: Center of window (should be safe)
                    set centerX to (item 1 of windowPos) + ((item 1 of windowSize) / 2)
                    set centerY to (item 2 of windowPos) + ((item 2 of windowSize) / 2)
                    log " ++ DQ ++ "🧪 Test 3: Center of window (" ++ DQ ++ " & centerX & " ++ DQ ++ ", " ++ DQ ++ " & centerY & " ++ DQ ++ ")" ++ DQ ++ "
                    click at {centerX, centerY}
                    
                  else
                    log " ++ DQ ++ "❌ No Simulator windows found" ++ DQ ++ "
                    error " ++ DQ ++ "No Simulator windows available" ++ DQ ++ "
                  end if
                end tell
              end tell
            ".

(** The AppleScript of the second attempt of [swipe]. *)
Definition swipe_script_clicks (startX startY endX endY : Q) : string :=
  "
              tell application " ++ DQ ++ "System Events" ++ DQ ++ "
                tell process " ++ DQ ++ "Simulator" ++ DQ ++ "
                  -- Simple approach: click start and end points
                  click at {" ++ rnd startX ++ ", " ++ rnd startY ++ "}
                  delay 0.2
                  click at {" ++ rnd endX ++ ", " ++ rnd endY ++ "}
                end tell
              end tell
            ".

(** The AppleScript of the last-resort drag of [swipe]. *)
Definition swipe_script_drag (startX startY endX endY : Q) : string :=
  "
            tell application " ++ DQ ++ "System Events" ++ DQ ++ "
              tell process " ++ DQ ++ "Simulator" ++ DQ ++ "
                set dragStartX to " ++ rnd startX ++ "
                set dragStartY to " ++ rnd startY ++ "
                set dragEndX to " ++ rnd endX ++ "
                set dragEndY to " ++ rnd endY ++ "


                mousedown at {dragStartX, dragStartY}
                delay 0.1
                mousemove to {dragEndX, dragEndY}
                delay 0.1
                mouseup at {dragEndX, dragEndY}
              end tell
            end tell
          ".

(** The local variables [success] and [lastError] of [tap] and [swipe];
    an error is kept by its [message]. *)
Definition Attempts : Type := (bool * option string)%type.

(** [try { m; success = true } catch (error) { lastError = error }] *)
Definition attempt (m : M unit) (a : Attempts) : M Attempts :=
  try_catch (m ;;; ret (true, snd a))
            (fun error => ret (fst a, Some error)).

(** [if (!success) { try ... }] *)
Definition attempt_unless_done (m : M unit) (a : Attempts) : M Attempts :=
  if fst a then ret a else attempt m a.

(** [lastError?.message || <All methods failed>] *)
Definition last_message (a : Attempts) : string :=
  match snd a with
  | Some message => str_or message "All methods failed"
  | None => "All methods failed"
  end.

(** Try 1 of [tap]: [devicectl], when it lists the current device. *)
Definition tap_devicectl (x y : Q) : M unit :=
  wdaCheck <- exec "xcrun devicectl list devices" ;;
  dev <- this_device ;;
  if includes wdaCheck dev
  then _ <- exec ("xcrun devicectl device " ++ dev
                  ++ " send-input touch --x " ++ rnd x
                  ++ " --y " ++ rnd y) ;;
       ret tt
  else throw "WDA not available for this device".

(** Try 2 of [tap]: [simctl ui]. *)
Definition tap_simctl (x y : Q) : M unit :=
  dev <- this_device ;;
  _ <- exec ("xcrun simctl ui " ++ dev ++ " tap " ++ rnd x ++ " " ++ rnd y) ;;
  ret tt.

(** [execSync(`osascript -e '${script}'`)] *)
Definition osascript (script : string) : M unit :=
  _ <- exec ("osascript -e '" ++ script ++ "'") ;; ret tt.

(** The four attempts of [tap], in the order of the source. *)
Definition tap_attempts (x y : Q) : M Attempts :=
  a <- attempt (tap_devicectl x y) (false, None) ;;
  a <- attempt_unless_done (tap_simctl x y) a ;;
  a <- attempt_unless_done (osascript (tap_script_scaled x y)) a ;;
  attempt_unless_done (osascript (tap_script_debug x y)) a.

(** [`Failed to tap at (${x}, ${y}): ${message}`] *)
Definition tap_failure (x y : Q) (message : string) : string :=
  "Failed to tap at (" ++ Number_toString x ++ ", " ++ Number_toString y
  ++ "): " ++ message.

(** [tap(x, y)] *)
Definition tap (x y : Q) : M TapResult :=
  try_catch
    (ensure_connected ;;;
     try_catch
       (a <- tap_attempts x y ;;
        if fst a
        then s <- get ;;
             ret {| tap_success := true; tap_x := x; tap_y := y;
                    tap_device := currentDevice (wdaClient s) |}
        else throw (tap_failure x y (last_message a)))
       (fun execError => throw (tap_failure x y execError)))
    (fun error => throw (tap_failure x y error)).

(** Try 1 of [swipe]: [devicectl], when it lists the current device. *)
Definition swipe_devicectl (startX startY endX endY : Q) : M unit :=
  wdaCheck <- exec "xcrun devicectl list devices" ;;
  dev <- this_device ;;
  if includes wdaCheck dev
  then _ <- exec ("xcrun devicectl device " ++ dev
                  ++ " send-input swipe --start-x " ++ rnd startX
                  ++ " --start-y " ++ rnd startY
                  ++ " --end-x " ++ rnd endX
                  ++ " --end-y " ++ rnd endY) ;;
       ret tt
  else throw "WDA not available for this device".

(** The two attempts of [swipe]. *)
Definition swipe_attempts (startX startY endX endY : Q) : M Attempts :=
  a <- attempt (swipe_devicectl startX startY endX endY) (false, None) ;;
  attempt_unless_done
    (osascript (swipe_script_clicks startX startY endX endY)) a.

(** [`Failed to swipe from (..) to (..): ${message}`] *)
Definition swipe_failure (startX startY endX endY : Q) (message : string)
  : string :=
  "Failed to swipe from (" ++ Number_toString startX ++ ", "
  ++ Number_toString startY ++ ") to (" ++ Number_toString endX ++ ", "
  ++ Number_toString endY ++ "): " ++ message.

Definition swipe_result (startX startY endX endY duration : Q)
  : M SwipeResult :=
  s <- get ;;
  ret {| swipe_success := true;
         swipe_startX := startX; swipe_startY := startY;
         swipe_endX := endX; swipe_endY := endY;
         swipe_duration := duration;
         swipe_device := currentDevice (wdaClient s) |}.

(** [swipe(startX, startY, endX, endY, duration)]; the computed
    [durationInSeconds] is never read. *)
Definition swipe (startX startY endX endY duration : Q) : M SwipeResult :=
  try_catch
    (ensure_connected ;;;
     try_catch
       (a <- swipe_attempts startX startY endX endY ;;
        if negb (fst a)
        then throw ("Swipe failed: " ++ last_message a)
        else swipe_result startX startY endX endY duration)
       (fun _ =>
          try_catch
            (osascript (swipe_script_drag startX startY endX endY) ;;;
             swipe_result startX startY endX endY duration)
            (fun fallbackError =>
               throw (swipe_failure startX startY endX endY fallbackError))))
    (fun error => throw (swipe_failure startX startY endX endY error)).

(** [sendKeys(text)]; the command handed to the shell is the template
    [`xcrun simctl keyboard ${this.currentDevice} type Q${text}Q`], where Q
    stands for the double-quote character. *)
Definition sendKeys (text : string) : M KeysResult :=
  try_catch
    (ensure_connected ;;;
     dev <- this_device ;;
     _ <- exec ("xcrun simctl keyboard " ++ dev ++ " type "
                ++ DQ ++ text ++ DQ) ;;
     s <- get ;;
     ret {| keys_success := true; keys_text := text;
            keys_device := currentDevice (wdaClient s) |})
    (fun error =>
       throw ("Failed to send keys " ++ DQ ++ text ++ DQ ++ ": " ++ error)).

(** ** [ffmpeg-stream.js]

    The server calls [startStream] and [stopStream] only.  The methods
    that would start a capture process, [startFFmpegStream] and
    [startWebRTCStream], have no caller, so [ffmpegProcess] is never set;
    [stopStream] kills the process when there is one. *)

Definition update_stream (f : FFmpegStream -> FFmpegStream) : M unit :=
  modify (fun s => set_ffmpegStream (f (ffmpegStream s)) s).

(** [clearInterval(h)] *)
Definition clearInterval (h : TimerId) : M unit :=
  modify (fun s =>
    set_timers (filter (fun t => negb (Nat.eqb (handle t) h)) (timers s))
               (next_handle s) s).

(** [setInterval(callback, ms)]: arms a timer and returns its handle. *)
Definition setInterval (ms : Z) : M TimerId :=
  fun s =>
    let h := next_handle s in
    (Ok h, set_timers ({| handle := h; period := ms |} :: timers s) (S h) s).

(** [this.emit(event)] on the stream object, which has no listener. *)
Definition stream_emit (event : string) : M unit :=
  modify (send (StreamEvent event)).

(** [startScreenshotLoop()] *)
Definition startScreenshotLoop : M unit :=
  s <- get ;;
  match screenshotInterval (ffmpegStream s) with
  | Some h => clearInterval h
  | None => ret tt
  end ;;;
  h <- setInterval 100 ;;
  update_stream (fun f =>
    {| ffmpegProcess := ffmpegProcess f; isStreaming := isStreaming f;
       currentSocket := currentSocket f; simulatorId := simulatorId f;
       screenshotInterval := Some h |}).

(** The callback armed by [startScreenshotLoop], run on each tick. *)
Definition screenshot_tick : M unit :=
  s <- get ;;
  match currentSocket (ffmpegStream s) with
  | Some socket =>
      if existsb (Nat.eqb socket) (connected s)
      then emit socket request_screenshot
      else ret tt
  | None => ret tt
  end.

(** [stopStream()] *)
Definition stopStream : M unit :=
  s <- get ;;
  match screenshotInterval (ffmpegStream s) with
  | Some h =>
      clearInterval h ;;;
      update_stream (fun f =>
        {| ffmpegProcess := ffmpegProcess f; isStreaming := isStreaming f;
           currentSocket := currentSocket f; simulatorId := simulatorId f;
           screenshotInterval := None |})
  | None => ret tt
  end ;;;
  match ffmpegProcess (ffmpegStream s) with
  | Some pid =>
      modify (fun s => record (world s) (EvKill pid) s) ;;;
      update_stream (fun f =>
        {| ffmpegProcess := None; isStreaming := isStreaming f;
           currentSocket := currentSocket f; simulatorId := simulatorId f;
           screenshotInterval := screenshotInterval f |})
  | None => ret tt
  end ;;;
  update_stream (fun f =>
    {| ffmpegProcess := ffmpegProcess f; isStreaming := false;
       currentSocket := None; simulatorId := None;
       screenshotInterval := screenshotInterval f |}) ;;;
  stream_emit "stream-stopped".

(** [startStream(socket, simulatorId = null)] *)
Definition startStream (socket : SocketId) (sim : option string) : M unit :=
  s <- get ;;
  (if isStreaming (ffmpegStream s) then stopStream else ret tt) ;;;
  update_stream (fun f =>
    {| ffmpegProcess := ffmpegProcess f; isStreaming := isStreaming f;
       currentSocket := Some socket; simulatorId := sim;
       screenshotInterval := screenshotInterval f |}) ;;;
  startScreenshotLoop ;;;
  update_stream (fun f =>
    {| ffmpegProcess := ffmpegProcess f; isStreaming := true;
       currentSocket := currentSocket f; simulatorId := simulatorId f;
       screenshotInterval := screenshotInterval f |}) ;;;
  stream_emit "stream-started".

(** ** [server.js]: the handlers of one client socket *)

(** Payloads of the input messages. *)
Record TapData : Type := { data_x : field; data_y : field }.

Record SwipeData : Type := {
  data_startX : field; data_startY : field;
  data_endX : field; data_endY : field;
  data_duration : field
}.

(** The number held by a field that passed the truthiness test. *)
Definition num (v : field) : Q :=
  match v with
  | Some q => q
  | None => 0
  end.

(** The handler of the [start-simulator] message *)
Definition on_start_simulator (socket : SocketId) : M unit :=
  try_catch
    (isAvailable <- checkXcode ;;
     if negb isAvailable then throw "Xcode tools not available"
     else
       ds <- listDevices ;;
       if (length ds =? 0)%nat then throw "No iOS simulators found"
       else
         deviceId <- connectToDevice None ;;
         emit socket (simulator_status "started" (Some deviceId)))
    (fun error => emit socket (error_msg "Failed to start simulator" error)).

(** The handler of the [stop-simulator] message *)
Definition on_stop_simulator (socket : SocketId) : M unit :=
  try_catch
    (disconnect ;;;
     emit socket (simulator_status "stopped" None))
    (fun error => emit socket (error_msg "Failed to stop simulator" error)).

(** The handler of the [tap] message *)
Definition on_tap (socket : SocketId) (data : TapData) : M unit :=
  try_catch
    (if falsy (data_x data) || falsy (data_y data)
     then throw "Invalid tap coordinates"
     else
       result <- tap (num (data_x data)) (num (data_y data)) ;;
       emit socket (input_result_ok "tap" (ResTap result)))
    (fun error => emit socket (input_result_fail "tap" error)).

(** The handler of the [swipe] message *)
Definition on_swipe (socket : SocketId) (data : SwipeData) : M unit :=
  try_catch
    (if falsy (data_startX data) || falsy (data_startY data)
        || falsy (data_endX data) || falsy (data_endY data)
     then throw "Invalid swipe coordinates"
     else
       result <- swipe (num (data_startX data)) (num (data_startY data))
                       (num (data_endX data)) (num (data_endY data))
                       (if falsy (data_duration data) then 1000
                        else num (data_duration data)) ;;
       emit socket (input_result_ok "swipe" (ResSwipe result)))
    (fun error => emit socket (input_result_fail "swipe" error)).

(** The handler of the [keyboard-input] message; [text] is [data.text] when it is a
    string. *)
Definition on_keyboard_input (socket : SocketId) (text : option string)
  : M unit :=
  try_catch
    (match text with
     | Some t =>
         if negb (str_truthy t) || (String.length (trim t) =? 0)%nat
         then throw "Empty keyboard input"
         else
           result <- sendKeys t ;;
           emit socket (input_result_ok "keyboard" (ResKeys result))
     | None => throw "Empty keyboard input"
     end)
    (fun error => emit socket (input_result_fail "keyboard" error)).

(** The handler of the [start-stream] message *)
Definition on_start_stream (socket : SocketId) : M unit :=
  try_catch
    (startStream socket None ;;;
     emit socket (stream_status "started"))
    (fun error => emit socket (error_msg "Failed to start stream" error)).

(** The handler of the [stop-stream] message *)
Definition on_stop_stream (socket : SocketId) : M unit :=
  try_catch
    (stopStream ;;;
     emit socket (stream_status "stopped"))
    (fun error => emit socket (error_msg "Failed to stop stream" error)).

(** The [SIGINT] handler, up to [process.exit]. *)
Definition on_sigint : M unit :=
  stopStream ;;; disconnect.

(** What can happen to the server process between two points of rest: a
    message of a client, or a tick of an armed interval timer. *)
Inductive Request : Type :=
| StartSimulator (socket : SocketId)
| StopSimulator (socket : SocketId)
| Tap (socket : SocketId) (data : TapData)
| Swipe (socket : SocketId) (data : SwipeData)
| KeyboardInput (socket : SocketId) (text : option string)
| StartStream (socket : SocketId)
| StopStream (socket : SocketId)
| Tick.

Definition handle_request (r : Request) : M unit :=
  match r with
  | StartSimulator k => on_start_simulator k
  | StopSimulator k => on_stop_simulator k
  | Tap k d => on_tap k d
  | Swipe k d => on_swipe k d
  | KeyboardInput k t => on_keyboard_input k t
  | StartStream k => on_start_stream k
  | StopStream k => on_stop_stream k
  | Tick =>
      s <- get ;;
      match timers s with
      | [] => ret tt
      | _ :: _ => screenshot_tick
      end
  end.

(** The state after a request has been served. *)
Definition serve (s : Sys) (r : Request) : Sys := snd (handle_request r s).

(** The states the server reaches from its start by serving requests. *)
Inductive reachable (w : World) (clients : list SocketId) : Sys -> Prop :=
| reach_boot : reachable w clients (boot_state w clients)
| reach_serve : forall s r,
    reachable w clients s -> reachable w clients (serve s r).

(** Armed polling timers plus a live capture process: the stream back ends
    that are running. *)
Definition running_backends (s : Sys) : nat :=
  length (timers s)
  + match ffmpegProcess (ffmpegStream s) with Some _ => 1 | None => 0 end.

(** The connection state the design calls Connected. *)
Definition Connected (c : WDAClient) : Prop :=
  isConnected c = true /\ exists d, currentDevice c = Some d.

(** *** Vocabulary of the statements *)

Definition is_spawn (e : Event) : Prop :=
  match e with
  | EvSpawn _ _ => True
  | _ => False
  end.

(** A payload field that holds the number zero. *)
Definition zero_field (v : field) : Prop :=
  exists q, v = Some q /\ q == 0.

(** The listing command issued by [listDevices] and by the confirmation
    step of [connectToDevice]. *)
Definition LIST : Event :=
  EvSpawn "xcrun" ["simctl"; "list"; "devices"; "available"].

(** The boot command for a device. *)
Definition BOOT (udid : string) : Event :=
  EvSpawn "xcrun" ["simctl"; "boot"; udid].

(** The probe that opens the first attempt of [tap] and [swipe]. *)
Definition PROBE : Event := EvExecSync "xcrun devicectl list devices".

(** A method that opens with the connection guard: what the guard does,
    and what the rest of the method does after it.  [s1] is the state the
    guard leaves; [failure] wraps the message of a failed connection. *)
Definition guarded {A} (m : M A) (failure : string -> string) : Prop :=
  forall s,
  exists added added',
    let s1 := snd (ensure_connected s) in
    let s' := snd (m s) in
    trace s1 = (trace s ++ added)%list /\ Forall is_spawn added /\
    trace s' = (trace s1 ++ added')%list /\
    wdaClient s' = wdaClient s1 /\
    match fst (ensure_connected s) with
    | Ok _ => Connected (wdaClient s1)
    | Throw e => fst (m s) = Throw (failure e) /\ added' = []
    end.

(** The stream object and the timers are left alone. *)
Definition stream_untouched (s s' : Sys) : Prop :=
  ffmpegStream s' = ffmpegStream s /\ timers s' = timers s /\
  next_handle s' = next_handle s.

(** The armed timers are exactly the one the stream object holds, their
    handles have been handed out already, and no capture process exists. *)
Definition stream_consistent (s : Sys) : Prop :=
  ffmpegProcess (ffmpegStream s) = None /\
  map handle (timers s)
  = match screenshotInterval (ffmpegStream s) with
    | Some h => [h]
    | None => []
    end /\
  Forall (fun t => (handle t < next_handle s)%nat) (timers s).

(** Only child processes were started between [s] and [s']. *)
Definition spawn_only (s s' : Sys) : Prop :=
  exists added, trace s' = (trace s ++ added)%list /\ Forall is_spawn added.

(** Commands may have been executed between [s] and [s'], the session
    object is the same. *)
Definition session_kept (s s' : Sys) : Prop :=
  wdaClient s' = wdaClient s
  /\ exists added, trace s' = (trace s ++ added)%list.

(** The commands the attempts of [tap] can hand to the shell. *)
Definition tap_commands (dev : string) (x y : Q) : list Event :=
  [ PROBE;
    EvExecSync ("xcrun devicectl device " ++ dev ++ " send-input touch --x "
                ++ Number_toString (inject_Z (Math_round x)) ++ " --y "
                ++ Number_toString (inject_Z (Math_round y)));
    EvExecSync ("xcrun simctl ui " ++ dev ++ " tap "
                ++ Number_toString (inject_Z (Math_round x)) ++ " "
                ++ Number_toString (inject_Z (Math_round y)));
    EvExecSync ("osascript -e '" ++ tap_script_scaled x y ++ "'");
    EvExecSync ("osascript -e '" ++ tap_script_debug x y ++ "'") ].

End Backend.

(** ** [webrtc-stream.js]

    The life cycle of the stream object: its polling timer and its peer
    connections.  The signalling messages a peer exchanges with its socket
    do not change the object and are left out. *)

Module WebRTC.

Definition PeerId := nat.

(** The fields of a [WebRTCStream] object; [peers] is the [Map] from
    socket id to peer connection, most recent entry first. *)
Record WebRTCStream : Type := {
  peers : list (SocketId * PeerId);
  isStreaming : bool;
  simulatorId : option string;
  screenshotMode : bool;
  screenshotInterval : option TimerId
}.

(** The stream object together with the run time it lives in: the armed
    interval timers, the peer connections that have not been destroyed
    (each with the socket it was created for), and the events emitted. *)
Record Proc : Type := {
  stream : WebRTCStream;
  timers : list Timer;
  next_handle : TimerId;
  live_peers : list (SocketId * PeerId);
  next_peer : PeerId;
  events : list string
}.

(** [new WebRTCStream()] in a fresh run time. *)
Definition init : Proc :=
  {| stream := {| peers := []; isStreaming := false; simulatorId := None;
                  screenshotMode := false; screenshotInterval := None |};
     timers := []; next_handle := O; live_peers := []; next_peer := O;
     events := [] |}.

Definition set_stream (f : WebRTCStream) (p : Proc) : Proc :=
  {| stream := f; timers := timers p; next_handle := next_handle p;
     live_peers := live_peers p; next_peer := next_peer p;
     events := events p |}.

Definition emit (event : string) (p : Proc) : Proc :=
  {| stream := stream p; timers := timers p; next_handle := next_handle p;
     live_peers := live_peers p; next_peer := next_peer p;
     events := (events p ++ [event])%list |}.

Definition clearInterval (h : TimerId) (p : Proc) : Proc :=
  {| stream := stream p;
     timers := filter (fun t => negb (Nat.eqb (handle t) h)) (timers p);
     next_handle := next_handle p;
     live_peers := live_peers p; next_peer := next_peer p;
     events := events p |}.

(** [this.screenshotInterval = setInterval(callback, ms)] *)
Definition arm_interval (ms : Z) (p : Proc) : Proc :=
  let h := next_handle p in
  let f := stream p in
  {| stream := {| peers := peers f; isStreaming := isStreaming f;
                  simulatorId := simulatorId f;
                  screenshotMode := screenshotMode f;
                  screenshotInterval := Some h |};
     timers := {| handle := h; period := ms |} :: timers p;
     next_handle := S h;
     live_peers := live_peers p; next_peer := next_peer p;
     events := events p |}.

Definition clear_current_interval (p : Proc) : Proc :=
  match screenshotInterval (stream p) with
  | Some h => clearInterval h p
  | None => p
  end.

(** [startScreenshotLoop(socket)] *)
Definition startScreenshotLoop (socket : SocketId) (p : Proc) : Proc :=
  arm_interval 100 (clear_current_interval p).

Definition drop_key (k : SocketId) (m : list (SocketId * PeerId))
  : list (SocketId * PeerId) :=
  filter (fun e => negb (Nat.eqb (fst e) k)) m.

Definition drop_peer (x : PeerId) (m : list (SocketId * PeerId))
  : list (SocketId * PeerId) :=
  filter (fun e => negb (Nat.eqb (snd e) x)) m.

(** [setupWebRTCConnection(socket)]; [failure] is the message of the error
    thrown by [new SimplePeer(...)], if it throws. *)
Definition setupWebRTCConnection (socket : SocketId)
           (failure : option string) (p : Proc) : Result unit * Proc :=
  match failure with
  | Some message => (Throw message, p)
  | None =>
      let x := next_peer p in
      let f := stream p in
      (Ok tt,
       {| stream := {| peers := (socket, x) :: drop_key socket (peers f);
                       isStreaming := isStreaming f;
                       simulatorId := simulatorId f;
                       screenshotMode := screenshotMode f;
                       screenshotInterval := screenshotInterval f |};
          timers := timers p; next_handle := next_handle p;
          live_peers := (socket, x) :: live_peers p;
          next_peer := S x;
          events := events p |})
  end.

(** [peer.destroy()].  The [close] event it raises deletes the map entry
    of the peer, which every caller of [destroy] removes as well. *)
Definition destroy (x : PeerId) (p : Proc) : Proc :=
  {| stream := stream p; timers := timers p; next_handle := next_handle p;
     live_peers := drop_peer x (live_peers p); next_peer := next_peer p;
     events := events p |}.

(** [stopStream()] *)
Definition stopStream (p : Proc) : Proc :=
  let p1 :=
    match screenshotInterval (stream p) with
    | Some h =>
        let q := clearInterval h p in
        set_stream {| peers := peers (stream q);
                      isStreaming := isStreaming (stream q);
                      simulatorId := simulatorId (stream q);
                      screenshotMode := screenshotMode (stream q);
                      screenshotInterval := None |} q
    | None => p
    end in
  let p2 := fold_left (fun q e => destroy (snd e) q) (peers (stream p1)) p1 in
  let f := stream p2 in
  emit "stream-stopped"
    (set_stream {| peers := []; isStreaming := false; simulatorId := None;
                   screenshotMode := screenshotMode f;
                   screenshotInterval := screenshotInterval f |} p2).

(** [startStream(socket, simulatorId = null)] *)
Definition startStream (socket : SocketId) (sim : option string)
           (failure : option string) (p : Proc) : Result unit * Proc :=
  let p1 := if isStreaming (stream p) then stopStream p else p in
  let f := stream p1 in
  let p2 := set_stream {| peers := peers f; isStreaming := true;
                          simulatorId := sim;
                          screenshotMode := screenshotMode f;
                          screenshotInterval := screenshotInterval f |} p1 in
  if screenshotMode (stream p2)
  then (Ok tt, emit "stream-started" (startScreenshotLoop socket p2))
  else match setupWebRTCConnection socket failure p2 with
       | (Ok _, p3) => (Ok tt, emit "stream-started" p3)
       | (Throw e, p3) => (Throw e, p3)
       end.

Definition set_mode (b : bool) (p : Proc) : Proc :=
  let f := stream p in
  set_stream {| peers := peers f; isStreaming := isStreaming f;
                simulatorId := simulatorId f; screenshotMode := b;
                screenshotInterval := screenshotInterval f |} p.

(** [enableWebRTCMode()] *)
Definition enableWebRTCMode : Proc -> Proc := set_mode false.

(** [enableScreenshotMode()] *)
Definition enableScreenshotMode : Proc -> Proc := set_mode true.

(** [this.peers.delete(socketId)] *)
Definition delete_peer (k : SocketId) (p : Proc) : Proc :=
  let f := stream p in
  set_stream {| peers := drop_key k (peers f);
                isStreaming := isStreaming f;
                simulatorId := simulatorId f;
                screenshotMode := screenshotMode f;
                screenshotInterval := screenshotInterval f |} p.

(** [this.peers.get(socketId)] *)
Definition get_peer (k : SocketId) (p : Proc) : option PeerId :=
  option_map snd (find (fun e => Nat.eqb (fst e) k) (peers (stream p))).

(** [handleClientDisconnect(socketId)] *)
Definition handleClientDisconnect (k : SocketId) (p : Proc) : Proc :=
  match get_peer k p with
  | Some x => delete_peer k (destroy x p)
  | None => p
  end.

(** The [close] event of the live peer [x] created for socket [k]: the
    connection is gone and the handler deletes the entry of [k]. *)
Definition peer_close (k : SocketId) (x : PeerId) (p : Proc) : Proc :=
  if existsb (fun e => Nat.eqb (fst e) k && Nat.eqb (snd e) x) (live_peers p)
  then delete_peer k (destroy x p)
  else p.

(** The table [intervals] of [updateStreamQuality]. *)
Definition intervals (quality : string) : option Z :=
  if String.eqb quality "low" then Some 200%Z
  else if String.eqb quality "medium" then Some 100%Z
  else if String.eqb quality "high" then Some 50%Z
  else None.

(** [updateStreamQuality(quality)] *)
Definition updateStreamQuality (quality : string) (p : Proc)
  : Result unit * Proc :=
  if negb (isStreaming (stream p))
  then (Throw "No active stream to update", p)
  else if screenshotMode (stream p)
  then match intervals quality, screenshotInterval (stream p) with
       | Some ms, Some h => (Ok tt, arm_interval ms (clearInterval h p))
       | _, _ => (Ok tt, p)
       end
  else (Ok tt, p).

(** Calls on the stream object and events of its peers. *)
Inductive Op : Type :=
| Start (socket : SocketId) (sim : option string) (failure : option string)
| Stop
| EnableWebRTC
| EnableScreenshot
| ClientDisconnect (socket : SocketId)
| PeerClose (socket : SocketId) (x : PeerId)
| UpdateQuality (quality : string).

Definition step (p : Proc) (o : Op) : Proc :=
  match o with
  | Start k sim failure => snd (startStream k sim failure p)
  | Stop => stopStream p
  | EnableWebRTC => enableWebRTCMode p
  | EnableScreenshot => enableScreenshotMode p
  | ClientDisconnect k => handleClientDisconnect k p
  | PeerClose k x => peer_close k x p
  | UpdateQuality q => snd (updateStreamQuality q p)
  end.

Inductive reachable : Proc -> Prop :=
| reach_init : reachable init
| reach_step : forall p o, reachable p -> reachable (step p o).

(** Armed polling timers plus live peer connections. *)
Definition running_backends (p : Proc) : nat :=
  length (timers p) + length (live_peers p).

(** The three shapes of a stream object at rest: nothing running, one
    polling timer, or one peer connection; the live peers are those of
    the map, and handles and peer ids in use have been handed out. *)
Definition consistent (p : Proc) : Prop :=
  live_peers p = peers (stream p) /\
  Forall (fun t => (handle t < next_handle p)%nat) (timers p) /\
  Forall (fun e => (snd e < next_peer p)%nat) (live_peers p) /\
  ((timers p = [] /\ screenshotInterval (stream p) = None
    /\ peers (stream p) = [])
   \/ (exists t, timers p = [t]
                 /\ screenshotInterval (stream p) = Some (handle t)
                 /\ peers (stream p) = []
                 /\ isStreaming (stream p) = true)
   \/ (exists k x, timers p = []
                   /\ screenshotInterval (stream p) = None
                   /\ peers (stream p) = [(k, x)]
                   /\ isStreaming (stream p) = true)).

End WebRTC.

(** ** The linear map of the design document *)

(** The map the design states for one axis:
    [device = client * deviceExtent / clientExtent]. *)
Definition linear_map (client deviceExtent clientExtent : Q) : Q :=
  client * deviceExtent / clientExtent.

(** ** Quoting *)



(** ** Scripted environments for the examples *)

(** Decimal rendering of the integer part of a number.  It agrees with
    [Number::toString] on the integers of magnitude below 10^21, the only
    numbers the examples render. *)
Definition show_number (q : Q) : string := Z_to_string (Qfloor q).

(** An environment whose state is the number of commands it has answered and
    whose answers are given by two tables. *)
Definition scripted_env (spawn_reply : nat -> list string -> SpawnResult)
           (exec_reply : nat -> string -> string + string) : Env :=
  {| World := nat;
     spawn := fun _ args n => (spawn_reply n args, S n);
     execSync := fun command n => (exec_reply n command, S n);
     Number_toString := show_number |}.

(** Output of [xcrun simctl list devices available] with one simulator in
    the given state. *)
Definition listing (state : string) : string :=
  "== Devices ==" ++ NL ++ "-- iOS 17.0 --" ++ NL
  ++ "    iPhone 15 (AAAA-0001) (" ++ state ++ ")" ++ NL.

Definition is_listing (args : list string) : bool :=
  match args with
  | a :: b :: _ => String.eqb a "simctl" && String.eqb b "list"
  | _ => false
  end.

(** [simctl] with one simulator in a fixed state; every other child process
    exits with code 0 and no output. *)
Definition simctl_reply (state : string) (args : list string) : SpawnResult :=
  if is_listing args then Closed (Some 0%Z) (listing state) EmptyString
  else Closed (Some 0%Z) EmptyString EmptyString.

(** One booted simulator that [devicectl] lists as well; every command
    succeeds. *)
Definition env_booted : Env :=
  scripted_env
    (fun _ args => simctl_reply "Booted" args)
    (fun _ command =>
       if String.eqb command "xcrun devicectl list devices"
       then inl ("iPhone 15   AAAA-0001   available" ++ NL)
       else inl EmptyString).

(** One booted simulator; every [execSync] fails, the n-th command answered
    by the environment with the message [e] followed by n. *)
Definition env_failing : Env :=
  scripted_env
    (fun _ args => simctl_reply "Booted" args)
    (fun n _ => inr ("e" ++ Z_to_string (Z.of_nat n))).

(** A simulator that is shut down behind the server's back: the first two
    listings show it booted, the later ones shut down, and booting it again
    has no effect. *)
Definition env_shut_down_later : Env :=
  scripted_env
    (fun n args => simctl_reply (if (n <? 2)%nat then "Booted" else "Shutdown")
                                args)
    (fun _ _ => inl EmptyString).

(** ** Scenarios *)

(** The server right after its start, with one client, next to a booted
    simulator. *)
Definition idle_booted : @Sys env_booted :=
  @boot_state env_booted 0%nat [1%nat].

(** The same server once [connectToDevice()] has run. *)
Definition connected_booted : @Sys env_booted :=
  snd (connectToDevice None idle_booted).

(** A connected server whose every [execSync] fails. *)
Definition connected_failing : @Sys env_failing :=
  snd (connectToDevice None (@boot_state env_failing 0%nat [1%nat])).

(** A server next to the simulator that is shut down later. *)
Definition idle_shut_down_later : @Sys env_shut_down_later :=
  @boot_state env_shut_down_later 0%nat [1%nat].

(** The payload of [tap({x: -5, y: 10})]. *)
Definition tap_minus5_10 : TapData :=
  {| data_x := Some (-5 # 1); data_y := Some (10 # 1) |}.

(** Start the simulator, start a stream, stop the simulator. *)
Definition stop_while_streaming : list Request :=
  [StartSimulator 1%nat; StartStream 1%nat; StopSimulator 1%nat].

(** What [listDevices] makes of the listing of the booted simulator. *)
Definition the_booted_device : Device :=
  {| id := "AAAA-0001"; name := "iPhone 15"; type := "Simulator";
     status := "Booted"; os := "iOS 17.0" |}.


(** A swipe that ends on the top edge. *)
Definition swipe_to_top_edge : SwipeData :=
  {| data_startX := Some (5 # 1); data_startY := Some (50 # 1);
     data_endX := Some (5 # 1); data_endY := Some (0 # 1);
     data_duration := Some (1000 # 1) |}.

(** A tap on the left edge. *)
Definition tap_on_left_edge : TapData :=
  {| data_x := Some (0 # 1); data_y := Some (10 # 1) |}.

(** A stream object started in peer mode and then switched to polling. *)
Definition switched_stream : WebRTC.Proc :=
  WebRTC.step
    (WebRTC.step
       (WebRTC.step WebRTC.init (WebRTC.Start 1%nat None None))
       WebRTC.EnableScreenshot)
    (WebRTC.Start 1%nat None None).

(** ** The other methods of the backend objects *)

Section BackendMore.

Context {E : Env}.

Notation "x <- m ;; k" := (bind m (fun x => k))
  (at level 61, m at next level, right associativity).
Notation "m ;;; k" := (bind m (fun _ => k))
  (at level 61, right associativity).

(** *** [wda-client.js]: screenshot, device info, status *)

Record ScreenshotResult : Type := {
  shot_success : bool; shot_filename : string; shot_device : option string
}.

(** [outputPath || `screenshot_${Date.now()}.png`]; [now] is the value of
    [Date.now()]. *)
Definition screenshot_filename (outputPath : option string) (now : Q)
  : string :=
  match outputPath with
  | Some (String c r) => String c r
  | _ => "screenshot_" ++ Number_toString now ++ ".png"
  end.

(** [takeScreenshot(outputPath = null)] *)
Definition takeScreenshot (outputPath : option string) (now : Q)
  : M ScreenshotResult :=
  try_catch
    (ensure_connected ;;;
     let filename := screenshot_filename outputPath now in
     dev <- this_device ;;
     _ <- runCommand ["screenshot"; dev; filename] ;;
     s <- get ;;
     ret {| shot_success := true; shot_filename := filename;
            shot_device := currentDevice (wdaClient s) |})
    (fun error => throw ("Failed to take screenshot: " ++ error)).

Record DeviceInfo : Type := {
  info_deviceId : option string;
  info_status : string;
  info_properties : string;
  info_isConnected : bool
}.

(** The [status] field computed by [getDeviceInfo] from the line of the
    listing that mentions the device. *)
Definition line_status (deviceLine : option string) : string :=
  match deviceLine with
  | Some (String c r) =>
      if includes (String c r) "Booted" then "Booted" else "Shutdown"
  | _ => "Unknown"
  end.

(** [getDeviceInfo()] *)
Definition getDeviceInfo : M DeviceInfo :=
  try_catch
    (ensure_connected ;;;
     result <- runCommand ["list-targets"] ;;
     dev <- this_device ;;
     let deviceLine :=
       find (fun line => includes line dev) (split_lines result) in
     properties <- runCommand ["getenv"; dev; "SIMULATOR_DEVICE_NAME"] ;;
     s <- get ;;
     ret {| info_deviceId := currentDevice (wdaClient s);
            info_status := line_status deviceLine;
            info_properties := trim properties;
            info_isConnected := isConnected (wdaClient s) |})
    (fun error => throw ("Failed to get device info: " ++ error)).

Record ClientStatus : Type := {
  status_isConnected : bool;
  status_currentDevice : option string;
  status_devices : list Device;
  status_hasDevices : bool
}.

(** [getStatus()] of the [WDAClient] *)
Definition getStatus : M ClientStatus :=
  s <- get ;;
  ret {| status_isConnected := isConnected (wdaClient s);
         status_currentDevice := currentDevice (wdaClient s);
         status_devices := devices (wdaClient s);
         status_hasDevices := (0 <? length (devices (wdaClient s)))%nat |}.

(** *** [server.js]: the HTTP end points *)

(** The answer of an end point: [res.json(body)] or
    [res.status(500).json(body)]. *)
Inductive Response (A B : Type) : Type :=
| Status200 (body : A)
| Status500 (body : B).

Arguments Status200 {A B} body.
Arguments Status500 {A B} body.

(** An entry of the list sent to the front end. *)
Record Simulator : Type := {
  sim_id : string; sim_name : string; sim_runtime : string;
  sim_state : string
}.

(** The callback of [devices.map] in [GET /api/simulators] and in the
    [get-simulators] handler. *)
Definition to_simulator (d : Device) : Simulator :=
  {| sim_id := id d;
     sim_name := name d;
     sim_runtime := str_or (os d) "Unknown";
     sim_state := if String.eqb (status d) "Booted" then "booted"
                  else "shutdown" |}.

(** [GET /api/simulators] *)
Definition api_simulators : M (Response (list Simulator) string) :=
  try_catch
    (ds <- listDevices ;;
     ret (Status200 (map to_simulator ds)))
    (fun error => ret (Status500 error)).

(** The body of the answers of [GET /api/test-wda]. *)
Record WdaReport : Type := {
  report_status : string;
  report_message : string;
  report_wdaStatus : ClientStatus
}.

(** [GET /api/test-wda] *)
Definition api_test_wda : M (Response WdaReport WdaReport) :=
  try_catch
    (isAvailable <- checkXcode ;;
     _ <- listDevices ;;
     st <- getStatus ;;
     ret (Status200
            {| report_status := if isAvailable then "success" else "error";
               report_message := if isAvailable then "WDA client working"
                                 else "WDA is not available";
               report_wdaStatus := st |}))
    (fun error =>
       st <- getStatus ;;
       ret (Status500 {| report_status := "error";
                         report_message := error;
                         report_wdaStatus := st |})).

(** *** [ffmpeg-stream.js]: quality, status *)

(** [updateStreamQuality(quality)] of the [FFmpegStream]: the quality is
    handed back, nothing is changed. *)
Definition updateStreamQuality (quality : string) : M string :=
  s <- get ;;
  if negb (isStreaming (ffmpegStream s))
  then throw "No active stream to update"
  else ret quality.

Record StreamStatus : Type := {
  st_isStreaming : bool; st_hasSocket : bool;
  st_simulatorId : option string; st_ffmpegRunning : bool
}.

(** [getStatus()] of the [FFmpegStream] *)
Definition stream_getStatus : M StreamStatus :=
  s <- get ;;
  let f := ffmpegStream s in
  ret {| st_isStreaming := isStreaming f;
         st_hasSocket := match currentSocket f with
                         | Some _ => true | None => false end;
         st_simulatorId := simulatorId f;
         st_ffmpegRunning := match ffmpegProcess f with
                             | Some _ => true | None => false end |}.

(** *** Vocabulary of the statements *)

(** The socket a request came from; a tick comes from no socket. *)
Definition requester (r : Request) : option SocketId :=
  match r with
  | StartSimulator k | StopSimulator k | Tap k _ | Swipe k _
  | KeyboardInput k _ | StartStream k | StopStream k => Some k
  | Tick => None
  end.

Definition is_stream_event (o : Output) : Prop :=
  match o with
  | StreamEvent _ => True
  | ToClient _ _ => False
  end.

(** The two states of the stream controller at rest: nothing, or one
    stream polling every 100 ms for one client. *)
Definition stream_idle (s : Sys) : Prop :=
  ffmpegStream s = FFmpegStream_new /\ timers s = [].

Definition stream_polling (s : Sys) (k : SocketId) (h : TimerId) : Prop :=
  ffmpegStream s
  = {| ffmpegProcess := None; isStreaming := true;
       currentSocket := Some k; simulatorId := None;
       screenshotInterval := Some h |}
  /\ timers s = [{| handle := h; period := 100 |}].

(** The objects and the outbox are the same, the operating system may
    have been used. *)
Definition outbox_kept (s s' : Sys) : Prop := outbox s' = outbox s.

(** The child process [listDevices] and the confirmation step start. *)
Definition listing_outcome (s : Sys) : SpawnResult :=
  fst (spawn "xcrun" ["simctl"; "list"; "devices"; "available"] (world s)).

(** The standard output of a child process that exited with code 0. *)
Definition succeeded (r : SpawnResult) : option string :=
  match r with
  | Closed (Some 0%Z) stdout _ => Some stdout
  | _ => None
  end.

End BackendMore.

Arguments Status200 {A B} body.
Arguments Status500 {A B} body.

(** ** Predicates on strings *)

(** Every character of the string satisfies [p]. *)
Fixpoint all_chars (p : ascii -> bool) (s : string) : bool :=
  match s with
  | EmptyString => true
  | String c r => p c && all_chars p r
  end.




(** ** The front end: pointer handling of [IOSRemoteApp]

    The second of the two versions of the class, the one that checks the
    canvas bounds.  Drawing (touch indicator, crosshair) is left out; the
    position of the canvas at the time of an event is part of the event. *)

Module Frontend.

(** The fields of the application object that pointer handling reads and
    writes, with the size of the canvas. *)
Record App : Type := {
  simulatorRunning : bool;
  touchStartPos : option (Q * Q);
  canvas_width : Q;
  canvas_height : Q
}.







(** [handleSimulatorStatus(data)], for the value of [data.status]. *)
Definition handleSimulatorStatus (status : string) (a : App) : App :=
  if String.eqb status "started" then
    {| simulatorRunning := true; touchStartPos := touchStartPos a;
       canvas_width := canvas_width a; canvas_height := canvas_height a |}
  else if String.eqb status "stopped" then
    {| simulatorRunning := false; touchStartPos := touchStartPos a;
       canvas_width := canvas_width a; canvas_height := canvas_height a |}
  else a.



End Frontend.

(** * Properties *)

Section Combinators.

Context {E : Env}.

(** A relation between the state before and after that every step of a
    computation respects. *)
Variable R : Sys -> Sys -> Prop.
Hypothesis R_refl : forall s, R s s.
Hypothesis R_trans : forall s1 s2 s3, R s1 s2 -> R s2 s3 -> R s1 s3.

Definition respects {A} (m : M A) : Prop := forall s, R s (snd (m s)).

Lemma respects_ret {A} (a : A) : respects (ret a).
Proof. intro s. apply R_refl. Qed.

Lemma respects_throw {A} (e : string) : respects (@throw _ A e).
Proof. intro s. apply R_refl. Qed.

Lemma respects_get : respects get.
Proof. intro s. apply R_refl. Qed.

Lemma respects_bind {A B} (m : M A) (k : A -> M B) :
  respects m -> (forall a, respects (k a)) -> respects (bind m k).
Proof.
  intros Hm Hk s. unfold bind.
  specialize (Hm s). destruct (m s) as [[a | e] s1]; simpl in *.
  - eapply R_trans; [exact Hm | apply Hk].
  - exact Hm.
Qed.

Lemma respects_try_catch {A} (m : M A) (h : string -> M A) :
  respects m -> (forall e, respects (h e)) -> respects (try_catch m h).
Proof.
  intros Hm Hh s. unfold try_catch.
  specialize (Hm s). destruct (m s) as [[a | e] s1]; simpl in *.
  - exact Hm.
  - eapply R_trans; [exact Hm | apply Hh].
Qed.

Lemma respects_modify (f : Sys -> Sys) :
  (forall s, R s (f s)) -> respects (modify f).
Proof. intros Hf s. apply Hf. Qed.

End Combinators.

(** Resolution of [respects] goals along the structure of a method; [rf]
    and [tr] are the reflexivity and transitivity of the relation. *)
Ltac respect rf tr :=
  repeat match goal with
  | |- respects _ (bind _ _) => apply (respects_bind _ tr); [ | intro]
  | |- respects _ (try_catch _ _) => apply (respects_try_catch _ tr); [ | intro]
  | |- respects _ (ret _) => apply (respects_ret _ rf)
  | |- respects _ (throw _) => apply (respects_throw _ rf)
  | |- respects _ get => apply (respects_get _ rf)
  | |- respects _ (if ?b then _ else _) => destruct b
  | |- respects _ (match ?x with _ => _ end) => destruct x
  end.

Create HintDb frame.

Section Frames.

Context {E : Env}.

(** *** The input methods leave the stream object and the timers alone *)

Lemma stream_untouched_refl s : stream_untouched s s.
Proof. repeat split. Qed.

Lemma stream_untouched_trans s1 s2 s3 :
  stream_untouched s1 s2 -> stream_untouched s2 s3 -> stream_untouched s1 s3.
Proof.
  intros (H1 & H2 & H3) (H4 & H5 & H6).
  repeat split; congruence.
Qed.

Lemma runCommand_stream args : respects stream_untouched (runCommand args).
Proof.
  intro s. unfold runCommand.
  destruct (command_line args) as [c a].
  destruct (spawn c a (world s)) as [[[[ | p | p] | ] out err | msg] w'];
    repeat split.
Qed.

Lemma exec_stream c : respects stream_untouched (exec c).
Proof.
  intro s. unfold exec.
  destruct (execSync c (world s)) as [[out | msg] w']; repeat split.
Qed.

Lemma set_devices_stream ds : respects stream_untouched (set_devices ds).
Proof. intro s. repeat split. Qed.

Lemma set_connection_stream b d :
  respects stream_untouched (set_connection b d).
Proof. intro s. repeat split. Qed.

Lemma emit_stream k m : respects stream_untouched (emit k m).
Proof. intro s. repeat split. Qed.

#[local] Hint Resolve runCommand_stream exec_stream set_devices_stream
  set_connection_stream emit_stream : frame.

Ltac su := respect stream_untouched_refl stream_untouched_trans;
           auto with frame.

Lemma listDevices_stream : respects stream_untouched listDevices.
Proof. unfold listDevices. su. Qed.

#[local] Hint Resolve listDevices_stream : frame.

Lemma connectToDevice_stream d :
  respects stream_untouched (connectToDevice d).
Proof. unfold connectToDevice, select_device. su. Qed.

#[local] Hint Resolve connectToDevice_stream : frame.

Lemma ensure_connected_stream : respects stream_untouched ensure_connected.
Proof. unfold ensure_connected. su. Qed.

#[local] Hint Resolve ensure_connected_stream : frame.

Lemma osascript_stream c : respects stream_untouched (osascript c).
Proof. unfold osascript. su. Qed.

#[local] Hint Resolve osascript_stream : frame.

Lemma attempt_stream m a :
  respects stream_untouched m -> respects stream_untouched (attempt m a).
Proof. intro H. unfold attempt. su. Qed.

Lemma attempt_unless_done_stream m a :
  respects stream_untouched m ->
  respects stream_untouched (attempt_unless_done m a).
Proof.
  intro H. unfold attempt_unless_done.
  destruct (fst a); [apply respects_ret, stream_untouched_refl | ].
  now apply attempt_stream.
Qed.

Lemma tap_stream x y : respects stream_untouched (tap x y).
Proof.
  unfold tap, tap_attempts. su;
    try (apply attempt_stream || apply attempt_unless_done_stream);
    unfold tap_devicectl, tap_simctl, this_device; su.
Qed.

Lemma swipe_stream a b c d t : respects stream_untouched (swipe a b c d t).
Proof.
  unfold swipe, swipe_attempts, swipe_result. su;
    try (apply attempt_stream || apply attempt_unless_done_stream);
    unfold swipe_devicectl, this_device; su.
Qed.

Lemma sendKeys_stream t : respects stream_untouched (sendKeys t).
Proof. unfold sendKeys, this_device. su. Qed.

End Frames.

Section StreamInvariant.

Context {E : Env}.

Lemma stream_untouched_consistent s s' :
  stream_untouched s s' -> stream_consistent s -> stream_consistent s'.
Proof.
  intros (H1 & H2 & H3) (H4 & H5 & H6).
  unfold stream_consistent. now rewrite H1, H2, H3.
Qed.

Lemma clear_own_timer (ts : list Timer) (h : TimerId) :
  map handle ts = [h] ->
  filter (fun t => negb (Nat.eqb (handle t) h)) ts = [].
Proof.
  destruct ts as [ | t [ | t' ts]]; simpl; try discriminate.
  intros [= ->]. now rewrite Nat.eqb_refl.
Qed.

(** What [startStream] leaves behind, whatever was running before. *)
Lemma startStream_timers k sim s :
  stream_consistent s ->
  timers (snd (startStream k sim s))
  = [{| handle := next_handle s; period := 100 |}]
  /\ next_handle (snd (startStream k sim s)) = S (next_handle s)
  /\ ffmpegStream (snd (startStream k sim s))
     = {| ffmpegProcess := None; isStreaming := true;
          currentSocket := Some k; simulatorId := sim;
          screenshotInterval := Some (next_handle s) |}.
Proof.
  intros (Hp & Ht & _).
  destruct s as [c f ts n cs w tr ob]; simpl in *.
  destruct f as [pr st so si iv]; simpl in *. subst pr.
  destruct st, iv as [h | ]; simpl in Ht;
    try (apply clear_own_timer in Ht as Hc);
    try (apply map_eq_nil in Ht; subst ts);
    cbv [startStream stopStream startScreenshotLoop bind get ret modify
         update_stream clearInterval setInterval stream_emit send
         set_ffmpegStream set_timers record
         ffmpegStream screenshotInterval ffmpegProcess isStreaming
         currentSocket simulatorId timers next_handle snd fst];
    rewrite ?Hc; auto.
Qed.

Lemma stopStream_timers s :
  stream_consistent s ->
  timers (snd (stopStream s)) = []
  /\ next_handle (snd (stopStream s)) = next_handle s
  /\ ffmpegStream (snd (stopStream s)) = FFmpegStream_new.
Proof.
  intros (Hp & Ht & _).
  destruct s as [c f ts n cs w tr ob]; simpl in *.
  destruct f as [pr st so si iv]; simpl in *. subst pr.
  destruct iv as [h | ]; simpl in Ht;
    try (apply clear_own_timer in Ht as Hc);
    try (apply map_eq_nil in Ht; subst ts);
    cbv [startStream stopStream startScreenshotLoop bind get ret modify
         update_stream clearInterval setInterval stream_emit send
         set_ffmpegStream set_timers record
         ffmpegStream screenshotInterval ffmpegProcess isStreaming
         currentSocket simulatorId timers next_handle snd fst];
    rewrite ?Hc; auto.
Qed.

(** Every request but the two stream requests leaves the stream alone. *)
Lemma other_requests_stream r :
  match r with
  | StartStream _ | StopStream _ => True
  | _ => respects stream_untouched (handle_request r)
  end.
Proof.
  destruct r; try exact I;
    unfold handle_request, on_start_simulator, checkXcode,
           on_stop_simulator, disconnect, on_tap, on_swipe,
           on_keyboard_input, screenshot_tick;
    respect stream_untouched_refl stream_untouched_trans;
    auto using runCommand_stream, listDevices_stream,
               connectToDevice_stream, emit_stream, tap_stream,
               swipe_stream, sendKeys_stream, set_connection_stream.
Qed.

Lemma serve_consistent s r :
  stream_consistent s -> stream_consistent (serve s r).
Proof.
  intro H. pose proof (other_requests_stream r) as Hr.
  destruct r as [k | k | k d | k d | k t | k | k | ];
    try (apply (stream_untouched_consistent s); [apply Hr | exact H]).
  - destruct (startStream_timers k None s H) as (Ht & Hn & Hf).
    unfold serve, handle_request, on_start_stream, try_catch, bind, emit,
           modify.
    destruct (startStream k None s) as [[[] | e] s1]; simpl in *;
      unfold stream_consistent; simpl; rewrite Ht, Hn, Hf; simpl;
      repeat split; repeat constructor; simpl; lia.
  - destruct (stopStream_timers s H) as (Ht & Hn & Hf).
    unfold serve, handle_request, on_stop_stream, try_catch, bind, emit,
           modify.
    destruct (stopStream s) as [[[] | e] s1]; simpl in *;
      unfold stream_consistent; simpl; rewrite Ht, Hf; simpl;
      repeat split; constructor.
Qed.

Lemma timers_after_start_stream k s :
  stream_consistent s ->
  timers (serve s (StartStream k))
  = [{| handle := next_handle s; period := 100 |}].
Proof.
  intro H. destruct (startStream_timers k None s H) as (Ht & _ & _).
  unfold serve, handle_request, on_start_stream, try_catch, bind, emit,
         modify.
  destruct (startStream k None s) as [[[] | e] s1]; exact Ht.
Qed.

Lemma reachable_consistent w clients s :
  reachable w clients s -> stream_consistent s.
Proof.
  induction 1 as [ | s r _ IH].
  - repeat split; constructor.
  - now apply serve_consistent.
Qed.

End StreamInvariant.

Module WebRTCFacts.

Import WebRTC.

Lemma init_consistent : consistent init.
Proof.
  unfold consistent; simpl. repeat split; try constructor. auto.
Qed.

Ltac shape :=
  first [ left; repeat split; reflexivity
        | right; left; eexists; repeat split; reflexivity
        | right; right; do 2 eexists; repeat split; reflexivity ].

Ltac in_use :=
  repeat match goal with
  | |- Forall _ [] => constructor
  | |- Forall _ (_ :: _) => constructor; simpl
  | H : Forall _ (_ :: _) |- _ => inversion H; subst; clear H; simpl in *
  | |- (_ < _)%nat => lia
  end.

Ltac settle := simpl; repeat split; try reflexivity; try shape; in_use.

Lemma stopStream_consistent p : consistent p -> consistent (stopStream p).
Proof.
  destruct p as [[ps st si md iv] ts n lp np ev].
  unfold consistent; simpl.
  intros (Hl & Ft & Fp & [(? & ? & ?) | [(t & ? & ? & ? & ?)
                                        | (k & x & ? & ? & ? & ?)]]);
    subst; unfold stopStream; simpl; rewrite ?Nat.eqb_refl; settle.
Qed.

Lemma startStream_consistent k sim failure p :
  consistent p -> consistent (snd (startStream k sim failure p)).
Proof.
  destruct p as [[ps st si md iv] ts n lp np ev].
  unfold consistent; destruct st, md, failure; simpl;
  intros (Hl & Ft & Fp & [(? & ? & ?) | [(t & ? & ? & ? & ?)
                                        | (k' & x & ? & ? & ? & ?)]]);
    subst; unfold startStream, stopStream;
    simpl; rewrite ?Nat.eqb_refl; try discriminate; settle.
Qed.

Lemma step_consistent p o : consistent p -> consistent (step p o).
Proof.
  destruct o as [k sim failure | | | | k | k x | q]; simpl.
  - apply startStream_consistent.
  - apply stopStream_consistent.
  - unfold consistent; simpl. tauto.
  - unfold consistent; simpl. tauto.
  - destruct p as [[ps st si md iv] ts n lp np ev].
    unfold consistent; simpl.
    intros (Hl & Ft & Fp & [(? & ? & ?) | [(t & ? & ? & ? & ?)
                                          | (k' & x & ? & ? & ? & ?)]]);
      subst; unfold handleClientDisconnect, get_peer; simpl;
      try (destruct (Nat.eqb k' k) eqn:Hk); simpl;
      rewrite ?Hk, ?Nat.eqb_refl; settle.
  - destruct p as [[ps st si md iv] ts n lp np ev].
    unfold consistent; simpl.
    intros (Hl & Ft & Fp & [(? & ? & ?) | [(t & ? & ? & ? & ?)
                                          | (k' & x' & ? & ? & ? & ?)]]);
      subst; unfold peer_close; simpl;
      try (destruct (Nat.eqb k' k) eqn:Hk;
           destruct (Nat.eqb x' x) eqn:Hx); simpl;
      rewrite ?Hk, ?Hx, ?Nat.eqb_refl; settle.
  - destruct p as [[ps st si md iv] ts n lp np ev].
    unfold consistent, updateStreamQuality; destruct st, md; simpl;
    intros (Hl & Ft & Fp & [(? & ? & ?) | [(t & ? & ? & ? & ?)
                                          | (k' & x' & ? & ? & ? & ?)]]);
      subst; simpl; try destruct (intervals q); simpl;
      rewrite ?Nat.eqb_refl; try discriminate; settle.
Qed.

Lemma rtc_reachable_consistent p : reachable p -> consistent p.
Proof.
  induction 1 as [ | p o _ IH].
  - apply init_consistent.
  - now apply step_consistent.
Qed.

(** A start disarms the timer and destroys the peer that were there. *)
Lemma start_replaces k sim failure p :
  consistent p ->
  let p' := step p (Start k sim failure) in
  (forall t, In t (timers p) -> ~ In t (timers p'))
  /\ (forall e, In e (live_peers p) -> ~ In e (live_peers p')).
Proof.
  destruct p as [[ps st si md iv] ts n lp np ev].
  unfold consistent; destruct st, md, failure; simpl;
  intros (Hl & Ft & Fp & [(? & ? & ?) | [(t & ? & ? & ? & ?)
                                        | (k' & x & ? & ? & ? & ?)]]);
    subst; unfold startStream, stopStream;
    simpl; rewrite ?Nat.eqb_refl; try discriminate; simpl;
    (split; intros a Ha Hb; simpl in *;
     repeat match goal with
     | H : _ \/ _ |- _ => destruct H
     | H : False |- _ => destruct H
     | H : Forall _ (_ :: _) |- _ => inversion H; subst; clear H
     | H : (_, _) = (_, _) |- _ => inversion H; subst; clear H
     end; subst; simpl in *; try lia; try discriminate).
Qed.

Lemma consistent_backends p : consistent p -> (running_backends p <= 1)%nat.
Proof.
  unfold consistent, running_backends.
  intros (Hl & _ & _ & [(Ht & _ & Hp) | [(t & Ht & _ & Hp & _)
                                        | (k & x & Ht & _ & Hp & _)]]);
    rewrite Hl, Ht, Hp; simpl; lia.
Qed.

End WebRTCFacts.

Section Session.

Context {E : Env}.

(** *** Connecting starts child processes only *)

Lemma spawn_only_refl s : spawn_only s s.
Proof. exists []. split; [now rewrite app_nil_r | constructor]. Qed.

Lemma spawn_only_trans s1 s2 s3 :
  spawn_only s1 s2 -> spawn_only s2 s3 -> spawn_only s1 s3.
Proof.
  intros (a & Ha & Fa) (b & Hb & Fb). exists (a ++ b)%list. split.
  - now rewrite Hb, Ha, app_assoc.
  - apply Forall_app. now split.
Qed.

Lemma runCommand_trace args s :
  trace (snd (runCommand args s))
  = (trace s ++ [EvSpawn (fst (command_line args))
                         (snd (command_line args))])%list
  /\ wdaClient (snd (runCommand args s)) = wdaClient s.
Proof.
  unfold runCommand.
  destruct (command_line args) as [c a].
  destruct (spawn c a (world s)) as [[[[ | p | p] | ] out err | msg] w'];
    split; reflexivity.
Qed.

Lemma exec_trace c s :
  trace (snd (exec c s)) = (trace s ++ [EvExecSync c])%list
  /\ wdaClient (snd (exec c s)) = wdaClient s.
Proof.
  unfold exec.
  destruct (execSync c (world s)) as [[out | msg] w']; split; reflexivity.
Qed.

Lemma runCommand_spawn_only args : respects spawn_only (runCommand args).
Proof.
  intro s. destruct (runCommand_trace args s) as [H _].
  eexists. split; [exact H | ]. repeat constructor.
Qed.

Lemma modify_wda_spawn_only f :
  (forall s, trace (f s) = trace s) -> respects spawn_only (modify f).
Proof.
  intros H s. exists []. split; [ | constructor].
  simpl. now rewrite H, app_nil_r.
Qed.

Ltac so := respect spawn_only_refl spawn_only_trans;
           auto using runCommand_spawn_only, modify_wda_spawn_only.

Lemma listDevices_spawn_only : respects spawn_only listDevices.
Proof. unfold listDevices, set_devices. so. Qed.

Lemma connectToDevice_spawn_only d :
  respects spawn_only (connectToDevice d).
Proof.
  unfold connectToDevice, select_device, set_connection. so;
    auto using listDevices_spawn_only.
Qed.

Lemma ensure_connected_spawn_only : respects spawn_only ensure_connected.
Proof.
  unfold ensure_connected. so; auto using connectToDevice_spawn_only.
Qed.

(** *** What a connection attempt leaves in the session object *)

Lemma connectToDevice_post d s :
  match fst (connectToDevice d s) with
  | Ok dev =>
      isConnected (wdaClient (snd (connectToDevice d s))) = true
      /\ currentDevice (wdaClient (snd (connectToDevice d s))) = Some dev
  | Throw _ =>
      isConnected (wdaClient (snd (connectToDevice d s))) = false
      /\ currentDevice (wdaClient (snd (connectToDevice d s))) = None
  end.
Proof.
  unfold connectToDevice, try_catch, bind.
  destruct (select_device d s) as [[dev | e] s1]; [ | simpl; auto].
  destruct (runCommand ["list-targets"] s1) as [[res | e] s2];
    [ | simpl; auto].
  destruct (find (fun line => includes line dev) (split_lines res))
    as [line | ]; [ | simpl; auto].
  destruct (includes line "Booted"); simpl; auto.
Qed.

Lemma ensure_connected_noop s :
  needs_connect (wdaClient s) = false -> ensure_connected s = (Ok tt, s).
Proof.
  intro H. unfold ensure_connected, bind, get. now rewrite H.
Qed.

Lemma connected_of_no_need c : needs_connect c = false -> Connected c.
Proof.
  unfold needs_connect, Connected, device_truthy.
  destruct (isConnected c), (currentDevice c) as [[ | a d] | ];
    simpl; try discriminate.
  intros _. split; eauto.
Qed.

Lemma ensure_connected_post s :
  match fst (ensure_connected s) with
  | Ok _ => Connected (wdaClient (snd (ensure_connected s)))
  | Throw _ => True
  end.
Proof.
  unfold ensure_connected, bind, get.
  destruct (needs_connect (wdaClient s)) eqn:Hn.
  - pose proof (connectToDevice_post None s) as H.
    destruct (connectToDevice None s) as [[dev | e] s1]; simpl in *; auto.
    destruct H as [H1 H2]. split; eauto.
  - simpl. now apply connected_of_no_need.
Qed.

(** *** Methods that open with the guard *)

Lemma session_kept_refl s : session_kept s s.
Proof. split; [reflexivity | ]. exists []. now rewrite app_nil_r. Qed.

Lemma session_kept_trans s1 s2 s3 :
  session_kept s1 s2 -> session_kept s2 s3 -> session_kept s1 s3.
Proof.
  intros (Ha & a & Ta) (Hb & b & Tb). split; [congruence | ].
  exists (a ++ b)%list. now rewrite Tb, Ta, app_assoc.
Qed.

Lemma exec_session_kept c : respects session_kept (exec c).
Proof.
  intro s. destruct (exec_trace c s) as [H1 H2]. split; eauto.
Qed.




Lemma guarded_intro {A} (body : M A) (failure : string -> string) :
  respects session_kept body ->
  guarded (try_catch (bind ensure_connected (fun _ => body))
                     (fun error => throw (failure error)))
          failure.
Proof.
  intros Hb s.
  destruct (ensure_connected_spawn_only s) as (added & Ha & Fa).
  pose proof (ensure_connected_post s) as Hc.
  unfold try_catch, bind.
  destruct (ensure_connected s) as [[u | e] s1]; simpl in *.
  - destruct (Hb s1) as (Hw & added' & Ht).
    exists added, added'.
    destruct (body s1) as [[a | e'] s']; simpl in *; tauto.
  - exists added, []. rewrite app_nil_r. tauto.
Qed.



End Session.

Section TapTrace.

Context {E : Env}.

Local Opaque tap_script_scaled tap_script_debug String.append includes
  Math_round.

Ltac run_commands :=
  repeat match goal with
  | |- context [execSync ?c ?w] =>
      destruct (execSync c w) as [[? | ?] ?]; cbn
  | |- context [if includes ?a ?b then _ else _] =>
      destruct (includes a b); cbn
  end.

(** The commands of one [tap] on a connected session: the probe first,
    then only commands of the list [tap_commands]. *)
Lemma tap_trace s x y :
  needs_connect (wdaClient s) = false ->
  exists rest,
    trace (snd (tap x y s)) = (trace s ++ PROBE :: rest)%list
    /\ Forall (fun e =>
                 In e (tap_commands
                         (render_device (currentDevice (wdaClient s))) x y))
              rest.
Proof.
  intro Hn. unfold tap, try_catch, bind.
  rewrite (ensure_connected_noop s Hn).
  unfold tap_attempts, attempt_unless_done, attempt, tap_devicectl,
         tap_simctl, osascript, this_device, bind, try_catch, ret, throw,
         get, exec, rnd, tap_commands, PROBE.
  cbn. run_commands;
    rewrite <- ?app_assoc; cbn; eexists; (split; [reflexivity | ]);
    repeat (apply Forall_cons || apply Forall_nil); cbn; auto 10.
Qed.

End TapTrace.

Section Connect.

Context {E : Env}.

Lemma listDevices_trace s :
  trace (snd (listDevices s)) = (trace s ++ [LIST])%list
  /\ exists ds, fst (listDevices s) = Ok ds.
Proof.
  unfold listDevices, try_catch, bind.
  destruct (runCommand_trace ["list-targets"] s) as [Ht _].
  destruct (runCommand ["list-targets"] s) as [[res | e] s1];
    simpl in *; split; eauto.
Qed.

Lemma confirm_trace s :
  trace (snd (runCommand ["list-targets"] s)) = (trace s ++ [LIST])%list.
Proof. apply runCommand_trace. Qed.

Lemma boot_trace udid s :
  trace (snd (runCommand ["boot"; udid] s)) = (trace s ++ [BOOT udid])%list.
Proof. apply runCommand_trace. Qed.

(** Which commands a connection attempt without a device id issues. *)
Lemma connect_trace s ds :
  fst (listDevices s) = Ok ds ->
  match find is_booted_simulator ds with
  | Some d =>
      trace (snd (connectToDevice None s)) = (trace s ++ [LIST; LIST])%list
      /\ match fst (connectToDevice None s) with
         | Ok dev => dev = id d
         | Throw _ => True
         end
  | None =>
      match find is_simulator ds with
      | Some f =>
          exists rest,
            trace (snd (connectToDevice None s))
            = (trace s ++ LIST :: BOOT (id f) :: rest)%list
      | None =>
          trace (snd (connectToDevice None s)) = (trace s ++ [LIST])%list
          /\ fst (connectToDevice None s)
             = Throw "No iOS simulator found. Please start a simulator first."
      end
  end.
Proof.
  intro Hl. destruct (listDevices_trace s) as [Ht _].
  unfold connectToDevice, select_device, try_catch, bind.
  destruct (listDevices s) as [[ds' | e] s1]; simpl in Hl, Ht;
    [ | discriminate]. injection Hl as ->.
  destruct (find is_booted_simulator ds) as [d | ].
  - unfold ret. pose proof (confirm_trace s1) as Hc.
    destruct (runCommand ["list-targets"] s1) as [[res | e] s2];
      simpl in Hc |- *.
    + destruct (find _ (split_lines res)) as [line | ];
        [destruct (includes line "Booted") | ]; simpl;
        rewrite Hc, Ht, <- app_assoc; auto.
    + rewrite Hc, Ht, <- app_assoc; auto.
  - destruct (find is_simulator ds) as [f | ].
    + pose proof (boot_trace (id f) s1) as Hb.
      destruct (runCommand ["boot"; id f] s1) as [[out | e] s2];
        simpl in Hb |- *.
      * pose proof (confirm_trace s2) as Hc.
        destruct (runCommand ["list-targets"] s2) as [[res | e] s3];
          simpl in Hc |- *;
          [destruct (find _ (split_lines res)) as [line | ];
           [destruct (includes line "Booted") | ] | ]; simpl;
          rewrite Hc, Hb, Ht, <- !app_assoc; eexists; reflexivity.
      * rewrite Hb, Ht, <- app_assoc. eexists. reflexivity.
    + simpl. rewrite Ht. auto.
Qed.

End Connect.

Section Gateway.

Context {E : Env}.

Lemma zero_field_falsy v : zero_field v -> falsy v = true.
Proof.
  intros (q & -> & Hq). simpl. now apply Qeq_bool_iff.
Qed.

Lemma nonzero_truthy q : ~ q == 0 -> falsy (Some q) = false.
Proof.
  intro H. simpl. destruct (Qeq_bool q 0) eqn:Hq; [ | reflexivity].
  apply Qeq_bool_iff in Hq. contradiction.
Qed.

Lemma on_tap_rejects k d s :
  zero_field (data_x d) \/ zero_field (data_y d) ->
  on_tap k d s
  = (Ok tt,
     send (ToClient k (input_result_fail "tap" "Invalid tap coordinates")) s).
Proof.
  intro H. unfold on_tap, try_catch.
  assert (Hf : falsy (data_x d) || falsy (data_y d) = true).
  { destruct H as [H | H]; apply zero_field_falsy in H; rewrite H;
      auto using orb_true_r. }
  now rewrite Hf.
Qed.

Lemma on_swipe_rejects k d s :
  zero_field (data_startX d) \/ zero_field (data_startY d)
  \/ zero_field (data_endX d) \/ zero_field (data_endY d) ->
  on_swipe k d s
  = (Ok tt,
     send (ToClient k
             (input_result_fail "swipe" "Invalid swipe coordinates")) s).
Proof.
  intro H. unfold on_swipe, try_catch.
  assert (Hf : falsy (data_startX d) || falsy (data_startY d)
               || falsy (data_endX d) || falsy (data_endY d) = true).
  { destruct H as [H | [H | [H | H]]]; apply zero_field_falsy in H;
      rewrite H; rewrite ?orb_true_r; reflexivity. }
  now rewrite Hf.
Qed.

(** A tap whose two coordinates are non-zero numbers is dispatched. *)
Lemma on_tap_dispatches k x y s :
  ~ x == 0 -> ~ y == 0 ->
  on_tap k {| data_x := Some x; data_y := Some y |} s
  = (Ok tt,
     match tap x y s with
     | (Ok r, s') => send (ToClient k (input_result_ok "tap" (ResTap r))) s'
     | (Throw e, s') => send (ToClient k (input_result_fail "tap" e)) s'
     end).
Proof.
  intros Hx Hy. unfold on_tap, try_catch, bind. cbn [data_x data_y num].
  rewrite (nonzero_truthy x Hx), (nonzero_truthy y Hy). cbn [orb].
  destruct (tap x y s) as [[r | e] s']; reflexivity.
Qed.

End Gateway.

Section Quoting.



End Quoting.

(** * The claims *)

Section Claims.

Context {E : Env}.

(** C1 (as the code has it).  The tap handler has no bounds check: it
    rejects falsy coordinates only.  A tap whose two coordinates are
    non-zero numbers, inside any surface or not, is handed to
    [WDAClient.tap] and its outcome is reported; on a connected session the
    probe of the first attempt is executed for it. *)
Theorem tap_has_no_bounds_check k s x y :
  ~ x == 0 -> ~ y == 0 ->
  on_tap k {| data_x := Some x; data_y := Some y |} s
  = (Ok tt,
     match tap x y s with
     | (Ok r, s') => send (ToClient k (input_result_ok "tap" (ResTap r))) s'
     | (Throw e, s') => send (ToClient k (input_result_fail "tap" e)) s'
     end)
  /\ (needs_connect (wdaClient s) = false ->
      exists rest,
        trace (snd (on_tap k {| data_x := Some x; data_y := Some y |} s))
        = (trace s ++ PROBE :: rest)%list).
Proof.
  intros Hx Hy. split; [now apply on_tap_dispatches | ].
  intro Hn. rewrite (on_tap_dispatches k x y s Hx Hy).
  destruct (tap_trace s x y Hn) as (rest & Ht & _).
  exists rest. destruct (tap x y s) as [[r | e] s']; exact Ht.
Qed.


(** C3 (as the code has it).  On a connected session [tap] throws exactly
    when each of its four attempts threw, and the error it throws carries
    one message: that of the fourth attempt, wrapped three times. *)
Theorem tap_throws_iff_all_attempts_threw s x y msg s' :
  needs_connect (wdaClient s) = false ->
  tap x y s = (Throw msg, s') <->
  exists e1 e2 e3 e4 s1 s2 s3,
    tap_devicectl x y s = (Throw e1, s1)
    /\ tap_simctl x y s1 = (Throw e2, s2)
    /\ osascript (tap_script_scaled x y) s2 = (Throw e3, s3)
    /\ osascript (tap_script_debug x y) s3 = (Throw e4, s')
    /\ msg = tap_failure x y
               (tap_failure x y
                  (tap_failure x y (str_or e4 "All methods failed"))).
Proof.
  intro Hn. unfold tap, try_catch, bind.
  rewrite (ensure_connected_noop s Hn).
  unfold tap_attempts, attempt_unless_done, attempt, bind, try_catch,
         ret, throw, get, last_message.
  destruct (tap_devicectl x y s) as [[[] | e1] s1] eqn:H1; simpl.
  { split; [discriminate | ].
    intros (? & ? & ? & ? & ? & ? & ? & ? & _). congruence. }
  destruct (tap_simctl x y s1) as [[[] | e2] s2] eqn:H2; simpl.
  { split; [discriminate | ].
    intros (? & ? & ? & ? & ? & ? & ? & ? & ? & _). congruence. }
  destruct (osascript (tap_script_scaled x y) s2) as [[[] | e3] s3] eqn:H3;
    simpl.
  { split; [discriminate | ].
    intros (? & ? & ? & ? & ? & ? & ? & ? & ? & ? & _). congruence. }
  destruct (osascript (tap_script_debug x y) s3) as [[[] | e4] s4] eqn:H4;
    simpl.
  { split; [discriminate | ].
    intros (? & ? & ? & ? & ? & ? & ? & ? & ? & ? & ? & _). congruence. }
  split.
  - intros [= <- <-]. now exists e1, e2, e3, e4, s1, s2, s3.
  - intros (? & ? & ? & ? & ? & ? & ? & ? & ? & ? & ? & ->). congruence.
Qed.

(** C4 (as the code has it).  [stop-simulator] clears the device
    reference, marks the session not connected and reports it; the stream
    object, the armed timers and the operating system are not touched. *)
Theorem stop_simulator_leaves_the_stream k s :
  let s' := snd (on_stop_simulator k s) in
  fst (on_stop_simulator k s) = Ok tt
  /\ isConnected (wdaClient s') = false
  /\ currentDevice (wdaClient s') = None
  /\ stream_untouched s s'
  /\ world s' = world s
  /\ trace s' = trace s
  /\ outbox s'
     = (outbox s ++ [ToClient k (simulator_status "stopped" None)])%list.
Proof. repeat split. Qed.

(** C5 (as the code has it).  [start-stream] does not look at the
    session: in every state it arms the polling timer, sets the running
    flag and reports that the stream has started, leaving the session and
    the operating system as they were. *)
Theorem start_stream_ignores_the_session k s :
  let s' := snd (on_start_stream k s) in
  fst (on_start_stream k s) = Ok tt
  /\ wdaClient s' = wdaClient s
  /\ world s' = world s
  /\ isStreaming (ffmpegStream s') = true
  /\ screenshotInterval (ffmpegStream s') = Some (next_handle s)
  /\ In {| handle := next_handle s; period := 100 |} (timers s')
  /\ outbox s'
     = (outbox s
        ++ (if isStreaming (ffmpegStream s)
            then [StreamEvent "stream-stopped"] else [])
        ++ [StreamEvent "stream-started";
            ToClient k (stream_status "started")])%list.
Proof.
  destruct s as [c [pr st so si iv] ts n cs w tr ob].
  destruct st, iv as [h | ], pr as [p | ];
    cbv [on_start_stream startStream stopStream startScreenshotLoop
         try_catch bind get ret modify emit update_stream clearInterval
         setInterval stream_emit send set_ffmpegStream set_timers record
         wdaClient ffmpegStream timers next_handle world outbox trace
         connected isStreaming screenshotInterval ffmpegProcess
         currentSocket simulatorId fst snd];
    (repeat split; [now left | ]);
    rewrite <- ?app_assoc; reflexivity.
Qed.

(** C6 (as the code has it).  No surface enters the computation.  On a
    connected session the commands of a tap are the probe followed by
    commands of [tap_commands], in which the coordinates are
    [Math.round(x)] and [Math.round(y)]: the stated map for two surfaces of
    the same extent, rounded. *)
Theorem tap_delivers_rounded_client_coordinates s x y :
  needs_connect (wdaClient s) = false ->
  (exists rest,
     trace (snd (tap x y s)) = (trace s ++ PROBE :: rest)%list
     /\ Forall (fun e =>
                  In e (tap_commands
                          (render_device (currentDevice (wdaClient s)))
                          x y))
               rest)
  /\ (forall extent, ~ extent == 0 ->
        Math_round (linear_map x extent extent) = Math_round x
        /\ Math_round (linear_map y extent extent) = Math_round y).
Proof.
  intro Hn. split; [now apply tap_trace | ].
  intros extent He. unfold Math_round, linear_map.
  split; apply Qfloor_comp; field; exact He.
Qed.

(** C7 (as the code has it).  [connectToDevice()] has no shortcut for a
    session that is connected already: every call lists the devices.  It
    issues no boot command when the list holds a booted device, which it
    selects; otherwise it boots the first device of the list.  A call that
    fails leaves the session not connected. *)
Theorem connect_boots_unless_a_device_is_booted s ds :
  fst (listDevices s) = Ok ds ->
  let r := connectToDevice None s in
  match find is_booted_simulator ds with
  | Some d =>
      trace (snd r) = (trace s ++ [LIST; LIST])%list
      /\ match fst r with
         | Ok dev => dev = id d
         | Throw _ => True
         end
  | None =>
      match find is_simulator ds with
      | Some f =>
          exists rest,
            trace (snd r) = (trace s ++ LIST :: BOOT (id f) :: rest)%list
      | None =>
          trace (snd r) = (trace s ++ [LIST])%list
          /\ fst r
             = Throw "No iOS simulator found. Please start a simulator first."
      end
  end
  /\ match fst r with
     | Ok dev =>
         isConnected (wdaClient (snd r)) = true
         /\ currentDevice (wdaClient (snd r)) = Some dev
     | Throw _ =>
         isConnected (wdaClient (snd r)) = false
         /\ currentDevice (wdaClient (snd r)) = None
     end.
Proof.
  intro Hl. split.
  - exact (connect_trace s ds Hl).
  - apply connectToDevice_post.
Qed.

(** C8.  In every state the server reaches, and in every state a
    [WebRTCStream] object reaches through its methods, at most one stream
    back end is running; a start leaves exactly the timer it armed, and
    no timer or peer connection that was running before the start
    survives it. *)
Theorem at_most_one_backend_runs w clients s p :
  reachable w clients s -> WebRTC.reachable p ->
  ((running_backends s <= 1)%nat
   /\ forall k,
        timers (serve s (StartStream k))
        = [{| handle := next_handle s; period := 100 |}]
        /\ forall t, In t (timers s) ->
                     ~ In t (timers (serve s (StartStream k))))
  /\ ((WebRTC.running_backends p <= 1)%nat
      /\ forall k sim failure,
           let p' := WebRTC.step p (WebRTC.Start k sim failure) in
           (forall t, In t (WebRTC.timers p) -> ~ In t (WebRTC.timers p'))
           /\ (forall e, In e (WebRTC.live_peers p) ->
                         ~ In e (WebRTC.live_peers p'))).
Proof.
  intros Hs Hp.
  apply reachable_consistent in Hs.
  apply WebRTCFacts.rtc_reachable_consistent in Hp.
  split; split.
  - destruct Hs as (Hpr & Hm & _). unfold running_backends.
    rewrite Hpr, <- (length_map handle), Hm.
    destruct (screenshotInterval (ffmpegStream s)); simpl; lia.
  - intro k. rewrite (timers_after_start_stream k s Hs).
    split; [reflexivity | ].
    intros t Ht [<- | []].
    destruct Hs as (_ & _ & Hf). rewrite Forall_forall in Hf.
    specialize (Hf _ Ht). simpl in Hf. lia.
  - now apply WebRTCFacts.consistent_backends.
  - intros k sim failure.
    apply (WebRTCFacts.start_replaces k sim failure p Hp).
Qed.

(** C9.  A tap with [x = 0] or [y = 0], and a swipe with one of its four
    coordinates equal to 0, is answered with the invalid-coordinates error
    and nothing else happens: no command is issued and no object
    changes. *)
Theorem zero_coordinates_are_rejected k s (t : TapData) (w : SwipeData) :
  zero_field (data_x t) \/ zero_field (data_y t) ->
  zero_field (data_startX w) \/ zero_field (data_startY w)
  \/ zero_field (data_endX w) \/ zero_field (data_endY w) ->
  on_tap k t s
  = (Ok tt,
     send (ToClient k (input_result_fail "tap" "Invalid tap coordinates")) s)
  /\ on_swipe k w s
     = (Ok tt,
        send (ToClient k
                (input_result_fail "swipe" "Invalid swipe coordinates")) s).
Proof.
  intros Ht Hw. split; [now apply on_tap_rejects | now apply on_swipe_rejects].
Qed.


End Claims.

(** * The claims on concrete runs *)

(** The tap of the design's scenario, on a connected session: the probe is
    executed for it. *)
Lemma tap_has_no_bounds_check_witness :
  exists rest,
    trace (snd (on_tap 1%nat tap_minus5_10 connected_booted))
    = (trace connected_booted ++ PROBE :: rest)%list.
Proof.
  refine (proj2 (tap_has_no_bounds_check (E:=env_booted) 1%nat
                   connected_booted (-5 # 1) (10 # 1) _ _) _).
  - intro H. vm_compute in H. discriminate H.
  - intro H. vm_compute in H. discriminate H.
  - vm_compute. reflexivity.
Defined.

(** C1 fails on the code: [tap({x: -5, y: 10})] on a connected session is
    not rejected.  The first attempt runs with the coordinates as they came
    and the client is told that the tap succeeded. *)
Lemma out_of_bounds_tap_is_dispatched :
  let s' := snd (on_tap 1%nat tap_minus5_10 connected_booted) in
  trace s'
  = (trace connected_booted
     ++ [PROBE;
         EvExecSync
           "xcrun devicectl device AAAA-0001 send-input touch --x -5 --y 10"])%list
  /\ outbox s'
     = [ToClient 1%nat
          (input_result_ok "tap"
             (ResTap {| tap_success := true; tap_x := -5 # 1; tap_y := 10 # 1;
                        tap_device := Some "AAAA-0001" |}))].
Proof. vm_compute. split; reflexivity. Qed.


(** A tap all of whose attempts fail. *)
Lemma tap_throws_iff_all_attempts_threw_witness :
  exists e1 e2 e3 e4 (s1 s2 s3 : @Sys env_failing),
    tap_devicectl (1 # 1) (1 # 1) connected_failing = (Throw e1, s1)
    /\ tap_simctl (1 # 1) (1 # 1) s1 = (Throw e2, s2)
    /\ osascript (tap_script_scaled (E:=env_failing) (1 # 1) (1 # 1)) s2 = (Throw e3, s3)
    /\ osascript (tap_script_debug (E:=env_failing) (1 # 1) (1 # 1)) s3
       = (Throw e4, snd (tap (1 # 1) (1 # 1) connected_failing))
    /\ "Failed to tap at (1, 1): Failed to tap at (1, 1): Failed to tap at (1, 1): e5"
       = tap_failure (E:=env_failing) (1 # 1) (1 # 1)
           (tap_failure (E:=env_failing) (1 # 1) (1 # 1)
              (tap_failure (E:=env_failing) (1 # 1) (1 # 1) (str_or e4 "All methods failed"))).
Proof.
  refine (proj1 (tap_throws_iff_all_attempts_threw (E:=env_failing)
                   connected_failing (1 # 1) (1 # 1) _ _ _) _).
  - vm_compute. reflexivity.
  - vm_compute. reflexivity.
Defined.

(** C3 fails on the code: the four attempts fail with four different
    messages, and the error [tap] throws holds the last of them only. *)
Lemma tap_error_keeps_only_the_last_message :
  let s1 := snd (tap_devicectl (1 # 1) (1 # 1) connected_failing) in
  let s2 := snd (tap_simctl (1 # 1) (1 # 1) s1) in
  let s3 := snd (osascript (tap_script_scaled (E:=env_failing) (1 # 1) (1 # 1)) s2) in
  let message :=
    "Failed to tap at (1, 1): Failed to tap at (1, 1): Failed to tap at (1, 1): e5" in
  fst (tap_devicectl (1 # 1) (1 # 1) connected_failing) = Throw "e2"
  /\ fst (tap_simctl (1 # 1) (1 # 1) s1) = Throw "e3"
  /\ fst (osascript (tap_script_scaled (E:=env_failing) (1 # 1) (1 # 1)) s2) = Throw "e4"
  /\ fst (osascript (tap_script_debug (E:=env_failing) (1 # 1) (1 # 1)) s3) = Throw "e5"
  /\ fst (tap (1 # 1) (1 # 1) connected_failing) = Throw message
  /\ includes message "e2" = false
  /\ includes message "e3" = false
  /\ includes message "e4" = false.
Proof. vm_compute. repeat split; reflexivity. Qed.

(** C4 fails on the code: after [stop-simulator] the session is not
    connected, and the stream started before is still running with its
    polling timer armed. *)
Lemma stream_survives_stop_simulator :
  let before :=
    fold_left serve [StartSimulator 1%nat; StartStream 1%nat] idle_booted in
  let s := fold_left serve stop_while_streaming idle_booted in
  isConnected (wdaClient before) = true
  /\ isConnected (wdaClient s) = false
  /\ currentDevice (wdaClient s) = None
  /\ isStreaming (ffmpegStream s) = true
  /\ timers s = [{| handle := 0%nat; period := 100 |}].
Proof. vm_compute. repeat split; reflexivity. Qed.

(** C5 fails on the code: [start-stream] on a server that never connected
    succeeds; the running flag is set and the timer armed. *)
Lemma stream_starts_without_a_session :
  let s := serve idle_booted (StartStream 1%nat) in
  isConnected (wdaClient idle_booted) = false
  /\ isConnected (wdaClient s) = false
  /\ isStreaming (ffmpegStream s) = true
  /\ timers s = [{| handle := 0%nat; period := 100 |}]
  /\ outbox s = [StreamEvent "stream-started";
                 ToClient 1%nat (stream_status "started")].
Proof. vm_compute. repeat split; reflexivity. Qed.

(** A tap at (100, 200) on a connected session. *)
Lemma tap_delivers_rounded_client_coordinates_witness :
  (exists rest,
     trace (snd (tap (100 # 1) (200 # 1) connected_booted))
     = (trace connected_booted ++ PROBE :: rest)%list
     /\ Forall (fun e =>
                  In e (tap_commands (E:=env_booted)
                          (render_device
                             (currentDevice (wdaClient connected_booted)))
                          (100 # 1) (200 # 1)))
               rest)
  /\ (forall extent, ~ extent == 0 ->
        Math_round (linear_map (100 # 1) extent extent) = Math_round (100 # 1)
        /\ Math_round (linear_map (200 # 1) extent extent)
           = Math_round (200 # 1)).
Proof.
  refine (tap_delivers_rounded_client_coordinates (E:=env_booted)
            connected_booted (100 # 1) (200 # 1) _).
  vm_compute. reflexivity.
Defined.

(** C6 fails on the code: for a 300 by 600 client surface and a 390 by 844
    device surface the stated map sends (100, 200) to (130, 281) after
    rounding; the command the code issues carries (100, 200). *)
Lemma tap_is_not_scaled :
  trace (snd (tap (100 # 1) (200 # 1) connected_booted))
  = (trace connected_booted
     ++ [PROBE;
         EvExecSync
           "xcrun devicectl device AAAA-0001 send-input touch --x 100 --y 200"])%list
  /\ Math_round (linear_map (100 # 1) (390 # 1) (300 # 1)) = 130%Z
  /\ Math_round (linear_map (200 # 1) (844 # 1) (600 # 1)) = 281%Z.
Proof. vm_compute. repeat split; reflexivity. Qed.

(** The first connection next to a booted simulator: two listings, no boot
    command. *)
Lemma connect_boots_unless_a_device_is_booted_witness :
  let r := connectToDevice None idle_booted in
  (trace (snd r) = (trace idle_booted ++ [LIST; LIST])%list
   /\ match fst r with
      | Ok dev => dev = id the_booted_device
      | Throw _ => True
      end)
  /\ match fst r with
     | Ok dev =>
         isConnected (wdaClient (snd r)) = true
         /\ currentDevice (wdaClient (snd r)) = Some dev
     | Throw _ =>
         isConnected (wdaClient (snd r)) = false
         /\ currentDevice (wdaClient (snd r)) = None
     end.
Proof.
  refine (connect_boots_unless_a_device_is_booted (E:=env_booted)
            idle_booted [the_booted_device] _).
  vm_compute. reflexivity.
Defined.

(** C7 fails on the code: the first [connectToDevice()] connects; the
    simulator is then shut down, and the second call, made while the session
    is connected, issues a boot command, fails and leaves the session not
    connected. *)
Lemma second_connect_boots_again :
  let r1 := connectToDevice None idle_shut_down_later in
  let r2 := connectToDevice None (snd r1) in
  fst r1 = Ok "AAAA-0001"
  /\ isConnected (wdaClient (snd r1)) = true
  /\ trace (snd r2) = (trace (snd r1) ++ [LIST; BOOT "AAAA-0001"; LIST])%list
  /\ fst r2 = Throw "Device AAAA-0001 is not booted"
  /\ isConnected (wdaClient (snd r2)) = false.
Proof. vm_compute. repeat split; reflexivity. Qed.

(** A server that served two [start-stream] requests, and a stream object
    that was switched from peer mode to polling. *)
Lemma at_most_one_backend_runs_witness :
  (running_backends
     (serve (serve idle_booted (StartStream 1%nat)) (StartStream 1%nat))
   <= 1)%nat
  /\ (WebRTC.running_backends switched_stream <= 1)%nat.
Proof.
  pose proof
    (at_most_one_backend_runs (E:=env_booted) 0%nat [1%nat] _ _
       (reach_serve _ _ _ (StartStream 1%nat)
          (reach_serve _ _ _ (StartStream 1%nat) (reach_boot _ _)))
       (WebRTC.reach_step _ (WebRTC.Start 1%nat None None)
          (WebRTC.reach_step _ WebRTC.EnableScreenshot
             (WebRTC.reach_step _ (WebRTC.Start 1%nat None None)
                WebRTC.reach_init)))) as H.
  split; [exact (proj1 (proj1 H)) | exact (proj1 (proj2 H))].
Defined.

(** A tap on the left edge and a swipe to the top edge. *)
Lemma zero_coordinates_are_rejected_witness :
  on_tap 1%nat tap_on_left_edge idle_booted
  = (Ok tt,
     send (ToClient 1%nat
             (input_result_fail "tap" "Invalid tap coordinates")) idle_booted)
  /\ on_swipe 1%nat swipe_to_top_edge idle_booted
     = (Ok tt,
        send (ToClient 1%nat
                (input_result_fail "swipe" "Invalid swipe coordinates"))
             idle_booted).
Proof.
  refine (zero_coordinates_are_rejected (E:=env_booted) 1%nat idle_booted
            tap_on_left_edge swipe_to_top_edge _ _).
  - left. exists (0 # 1). split; reflexivity.
  - right; right; right. exists (0 # 1). split; reflexivity.
Defined.


(** * Further properties of the code *)


Section DeviceLines.




Lemma span_exact_end p a :
  all_chars p a = true -> span p a = (a, EmptyString).
Proof.
  intro Ha. induction a as [ | x a IH]; cbn [span]; [reflexivity | ].
  cbn [all_chars] in Ha. apply andb_prop in Ha as [Hx Ha].
  now rewrite Hx, (IH Ha).
Qed.











End DeviceLines.

Section Parser.



End Parser.

Section Listing.

Context {E : Env}.

(** The result of the listing command as [runCommand] reports it. *)
Lemma runCommand_listing s :
  match succeeded (listing_outcome s) with
  | Some out => fst (runCommand ["list-targets"] s) = Ok (trim out)
  | None => exists e, fst (runCommand ["list-targets"] s) = Throw e
  end.
Proof.
  unfold listing_outcome, runCommand.
  change (command_line ["list-targets"])
    with ("xcrun", ["simctl"; "list"; "devices"; "available"]).
  cbv beta iota zeta.
  destruct (spawn "xcrun" ["simctl"; "list"; "devices"; "available"]
                  (world s))
    as [[[[ | p | p] | ] out err | msg] w']; cbn; eauto.
Qed.

End Listing.

Section DeviceListing.

Context {E : Env}.



Lemma listDevices_outcome s :
  let r := listDevices s in
  trace (snd r) = (trace s ++ [LIST])%list
  /\ isConnected (wdaClient (snd r)) = isConnected (wdaClient s)
  /\ currentDevice (wdaClient (snd r)) = currentDevice (wdaClient s)
  /\ match succeeded (listing_outcome s) with
     | Some out =>
         fst r = Ok (parse_devices (trim out))
         /\ devices (wdaClient (snd r)) = parse_devices (trim out)
     | None =>
         fst r = Ok []
         /\ devices (wdaClient (snd r)) = devices (wdaClient s)
     end.
Proof.
  pose proof (runCommand_listing s) as Hr.
  pose proof (runCommand_trace ["list-targets"] s) as [Ht Hw].
  change (EvSpawn _ _) with LIST in Ht.
  unfold listDevices, try_catch, bind, set_devices, modify, ret.
  destruct (runCommand ["list-targets"] s) as [[res | e] s1]; cbn in *;
    destruct (succeeded (listing_outcome s)) as [out | ].
  - injection Hr as ->. rewrite Hw. auto.
  - destruct Hr as [e He]. discriminate.
  - discriminate.
  - rewrite Hw. auto.
Qed.

(** X3.  [listDevices] never throws.  When the listing command exits with
    code 0 it returns the parsed devices and stores them; otherwise it
    returns the empty list and keeps the devices stored before.  It
    starts the listing command once and leaves the connection alone. *)
Theorem listDevices_swallows_failures s :
  let r := listDevices s in
  trace (snd r) = (trace s ++ [LIST])%list
  /\ isConnected (wdaClient (snd r)) = isConnected (wdaClient s)
  /\ currentDevice (wdaClient (snd r)) = currentDevice (wdaClient s)
  /\ match succeeded (listing_outcome s) with
     | Some out =>
         fst r = Ok (parse_devices (trim out))
         /\ devices (wdaClient (snd r)) = parse_devices (trim out)
     | None =>
         fst r = Ok []
         /\ devices (wdaClient (snd r)) = devices (wdaClient s)
     end.
Proof. exact (listDevices_outcome s). Qed.

(** X4.  [connectToDevice(deviceId)] with a non-empty id starts the
    listing command once and nothing else: it never boots the device.
    It succeeds, returning the id it was given, exactly when the listing
    succeeds and the first line that contains the id also contains
    [Booted]; a failure leaves the session not connected. *)
Theorem connect_to_named_device_never_boots s c r :
  let dev := String c r in
  let res := connectToDevice (Some dev) s in
  trace (snd res) = (trace s ++ [LIST])%list
  /\ ((exists out line,
         succeeded (listing_outcome s) = Some out
         /\ find (fun l => includes l dev) (split_lines (trim out))
            = Some line
         /\ includes line "Booted" = true)
      <-> fst res = Ok dev)
  /\ match fst res with
     | Ok d => d = dev
     | Throw _ => isConnected (wdaClient (snd res)) = false
                  /\ currentDevice (wdaClient (snd res)) = None
     end.
Proof.
  intros dev res. subst res dev.
  pose proof (runCommand_listing s) as Hr.
  pose proof (runCommand_trace ["list-targets"] s) as [Ht Hw].
  change (EvSpawn _ _) with LIST in Ht.
  unfold connectToDevice, select_device, try_catch, bind, set_connection,
         modify, ret, throw.
  cbv beta iota zeta.
  destruct (runCommand ["list-targets"] s) as [[out' | e] s1]; cbn in *;
    destruct (succeeded (listing_outcome s)) as [out | ].
  - injection Hr as ->.
    destruct (find (fun l => includes l (String c r))
                   (split_lines (trim out)))
      as [line | ] eqn:Hf;
      [destruct (includes line "Booted") eqn:Hb | ]; cbn;
      (split; [exact Ht | ]); (split; [ | auto]).
    + split; [reflexivity | ]. intros _. now exists out, line.
    + split; [ | discriminate].
      intros (o & l & [= <-] & Hl & Hb'). congruence.
    + split; [ | discriminate].
      intros (o & l & [= <-] & Hl & _). congruence.
  - destruct Hr as [e He]. discriminate.
  - discriminate.
  - split; [exact Ht | ]. split; [ | auto].
    split; [ | discriminate]. intros (o & l & Hs & _). discriminate.
Qed.

End DeviceListing.

Section MethodsRespect.

Context {E : Env}.

(** A relation that the four primitive steps of the [WDAClient] respect is
    respected by its methods. *)
Variable R : Sys -> Sys -> Prop.
Hypothesis R_refl : forall s, R s s.
Hypothesis R_trans : forall s1 s2 s3, R s1 s2 -> R s2 s3 -> R s1 s3.
Hypothesis R_run : forall args, respects R (runCommand args).
Hypothesis R_exec : forall c, respects R (exec c).
Hypothesis R_devices : forall ds, respects R (set_devices ds).
Hypothesis R_connection : forall b d, respects R (set_connection b d).

Ltac rr := respect R_refl R_trans;
           auto using R_run, R_exec, R_devices, R_connection.

Lemma checkXcode_respects : respects R checkXcode.
Proof. unfold checkXcode. rr. Qed.

Lemma listDevices_respects : respects R listDevices.
Proof. unfold listDevices. rr. Qed.

Lemma connectToDevice_respects d : respects R (connectToDevice d).
Proof.
  unfold connectToDevice, select_device. rr;
    auto using listDevices_respects.
Qed.

Lemma ensure_connected_respects : respects R ensure_connected.
Proof. unfold ensure_connected. rr; auto using connectToDevice_respects. Qed.

Lemma attempt_respects m a : respects R m -> respects R (attempt m a).
Proof. intro H. unfold attempt. rr. Qed.

Lemma attempt_unless_done_respects m a :
  respects R m -> respects R (attempt_unless_done m a).
Proof.
  intro H. unfold attempt_unless_done.
  destruct (fst a); [apply (respects_ret _ R_refl) | ].
  now apply attempt_respects.
Qed.

Lemma tap_respects x y : respects R (tap x y).
Proof.
  unfold tap, tap_attempts. rr;
    auto using ensure_connected_respects;
    try (apply attempt_respects || apply attempt_unless_done_respects);
    unfold tap_devicectl, tap_simctl, osascript, this_device; rr.
Qed.

Lemma swipe_respects a b c d t : respects R (swipe a b c d t).
Proof.
  unfold swipe, swipe_attempts, swipe_result. rr;
    auto using ensure_connected_respects;
    try (apply attempt_respects || apply attempt_unless_done_respects);
    unfold swipe_devicectl, osascript, this_device; rr.
Qed.

Lemma sendKeys_respects t : respects R (sendKeys t).
Proof.
  unfold sendKeys, this_device. rr; auto using ensure_connected_respects.
Qed.

End MethodsRespect.

Section OutboxKept.

Context {E : Env}.

Lemma outbox_kept_refl s : outbox_kept s s.
Proof. reflexivity. Qed.

Lemma outbox_kept_trans s1 s2 s3 :
  outbox_kept s1 s2 -> outbox_kept s2 s3 -> outbox_kept s1 s3.
Proof. unfold outbox_kept. congruence. Qed.

Lemma runCommand_outbox args : respects outbox_kept (runCommand args).
Proof.
  intro s. unfold runCommand.
  destruct (command_line args) as [c a].
  destruct (spawn c a (world s)) as [[[[ | p | p] | ] out err | msg] w'];
    reflexivity.
Qed.

Lemma exec_outbox c : respects outbox_kept (exec c).
Proof.
  intro s. unfold exec.
  destruct (execSync c (world s)) as [[out | msg] w']; reflexivity.
Qed.

Lemma set_devices_outbox ds : respects outbox_kept (set_devices ds).
Proof. intro s. reflexivity. Qed.

Lemma set_connection_outbox b d :
  respects outbox_kept (set_connection b d).
Proof. intro s. reflexivity. Qed.

Ltac ob :=
  first [ exact outbox_kept_refl | exact outbox_kept_trans
        | exact runCommand_outbox | exact exec_outbox
        | exact set_devices_outbox | exact set_connection_outbox ].

Lemma tap_outbox x y : respects outbox_kept (tap x y).
Proof. apply tap_respects; ob. Qed.

Lemma swipe_outbox a b c d t : respects outbox_kept (swipe a b c d t).
Proof. apply swipe_respects; ob. Qed.

Lemma sendKeys_outbox t : respects outbox_kept (sendKeys t).
Proof. apply sendKeys_respects; ob. Qed.

Lemma checkXcode_outbox : respects outbox_kept checkXcode.
Proof. apply checkXcode_respects; ob. Qed.

Lemma listDevices_outbox : respects outbox_kept listDevices.
Proof. apply listDevices_respects; ob. Qed.

Lemma connectToDevice_outbox d : respects outbox_kept (connectToDevice d).
Proof. apply connectToDevice_respects; ob. Qed.

End OutboxKept.

Section Requests.

Context {E : Env}.

Lemma runCommand_session_kept args : respects session_kept (runCommand args).
Proof.
  intro s. destruct (runCommand_trace args s) as [H1 H2]. split; eauto.
Qed.

(** X5.  [sendKeys], [takeScreenshot] and [getDeviceInfo] open with the
    same guard as [tap] and [swipe]: a session that is not connected is
    connected first; when that fails the method throws the connection
    error under its own prefix and does nothing else; otherwise the rest of
    the method runs on a Connected session and leaves the session object
    as it is. *)
Theorem other_methods_connect_first :
  (forall text,
      guarded (sendKeys text)
              (fun e => "Failed to send keys " ++ DQ ++ text ++ DQ
                        ++ ": " ++ e))
  /\ (forall outputPath now,
        guarded (takeScreenshot outputPath now)
                (fun e => "Failed to take screenshot: " ++ e))
  /\ guarded getDeviceInfo (fun e => "Failed to get device info: " ++ e).
Proof.
  split; [ | split]; intros;
    [ apply (guarded_intro _ (fun e => "Failed to send keys " ++ DQ ++ text
                                        ++ DQ ++ ": " ++ e))
    | apply (guarded_intro _ (fun e => "Failed to take screenshot: " ++ e))
    | apply (guarded_intro _ (fun e => "Failed to get device info: " ++ e)) ];
    unfold this_device;
    respect session_kept_refl session_kept_trans;
    auto using runCommand_session_kept, exec_session_kept.
Qed.

(** X6.  On a connected session [swipe] throws exactly when its two
    attempts and then the last-resort drag all threw; the error carries
    the message of the drag only, wrapped twice.  In every other case it
    returns. *)
Theorem swipe_throws_iff_the_drag_threw_too s a b c d t msg s' :
  needs_connect (wdaClient s) = false ->
  swipe a b c d t s = (Throw msg, s') <->
  exists e1 e2 e3 s1 s2,
    swipe_devicectl a b c d s = (Throw e1, s1)
    /\ osascript (swipe_script_clicks a b c d) s1 = (Throw e2, s2)
    /\ osascript (swipe_script_drag a b c d) s2 = (Throw e3, s')
    /\ msg = swipe_failure a b c d (swipe_failure a b c d e3).
Proof.
  intro Hn. unfold swipe, try_catch, bind.
  rewrite (ensure_connected_noop s Hn).
  unfold swipe_attempts, swipe_result, attempt_unless_done, attempt, bind,
         try_catch, ret, throw, get, last_message.
  destruct (swipe_devicectl a b c d s) as [[[] | e1] s1] eqn:H1; simpl.
  { split; [discriminate | ].
    intros (? & ? & ? & ? & ? & ? & _). congruence. }
  destruct (osascript (swipe_script_clicks a b c d) s1)
    as [[[] | e2] s2] eqn:H2; simpl.
  { split; [discriminate | ].
    intros (? & ? & ? & ? & ? & ? & ? & _). congruence. }
  destruct (osascript (swipe_script_drag a b c d) s2)
    as [[[] | e3] s3] eqn:H3; simpl.
  { split; [discriminate | ].
    intros (? & ? & ? & ? & ? & ? & ? & ? & _). congruence. }
  split.
  - intros [= <- <-]. now exists e1, e2, e3, s1, s2.
  - intros (? & ? & ? & ? & ? & ? & ? & ? & ->). congruence.
Qed.


(** X8.  Every message of a client is answered: the handler does not
    throw, and it sends exactly one message, to the socket the request
    came from, after the events of the stream object if there are any. *)
Theorem every_request_is_answered_once s r k :
  requester r = Some k ->
  fst (handle_request r s) = Ok tt
  /\ exists events m,
       outbox (serve s r) = (outbox s ++ events ++ [ToClient k m])%list
       /\ Forall is_stream_event events.
Proof.
  destruct r as [k' | k' | k' d | k' d | k' t | k' | k' | ];
    intros [= ->]; unfold serve, handle_request.
  - unfold on_start_simulator, try_catch, bind, emit, modify, throw.
    pose proof (checkXcode_outbox s) as H1. unfold outbox_kept in H1.
    destruct (checkXcode s) as [[[ | ] | e] s1]; cbn in *;
      try (split; [reflexivity | ]; exists [];
           eexists; rewrite H1; split; [reflexivity | constructor]).
    pose proof (listDevices_outbox s1) as H2. unfold outbox_kept in H2.
    destruct (listDevices s1) as [[ds | e] s2]; cbn in *;
      [destruct ds as [ | d0 ds]; cbn | ];
      try (split; [reflexivity | ]; exists [];
           eexists; rewrite H2, H1; split; [reflexivity | constructor]).
    pose proof (connectToDevice_outbox None s2) as H3.
    unfold outbox_kept in H3.
    destruct (connectToDevice None s2) as [[dev | e] s3]; cbn in *;
      (split; [reflexivity | ]); exists [];
      eexists; rewrite H3, H2, H1; (split; [reflexivity | constructor]).
  - split; [reflexivity | ]. exists []. eexists.
    split; [reflexivity | constructor].
  - unfold on_tap, try_catch, bind, emit, modify, throw.
    destruct (falsy (data_x d) || falsy (data_y d)); cbn.
    { split; [reflexivity | ]. exists []. eexists.
      split; [reflexivity | constructor]. }
    pose proof (tap_outbox (num (data_x d)) (num (data_y d)) s) as H.
    unfold outbox_kept in H.
    destruct (tap (num (data_x d)) (num (data_y d)) s) as [[res | e] s1];
      cbn in *; (split; [reflexivity | ]); exists [];
      eexists; rewrite H; (split; [reflexivity | constructor]).
  - unfold on_swipe, try_catch, bind, emit, modify, throw.
    destruct (falsy (data_startX d) || falsy (data_startY d)
              || falsy (data_endX d) || falsy (data_endY d)); cbn.
    { split; [reflexivity | ]. exists []. eexists.
      split; [reflexivity | constructor]. }
    match goal with
    | |- context [swipe ?a ?b ?c ?e ?t s] =>
        pose proof (swipe_outbox a b c e t s) as H;
        unfold outbox_kept in H;
        destruct (swipe a b c e t s) as [[res | err] s1]
    end;
      cbn in *; (split; [reflexivity | ]); exists [];
      eexists; rewrite H; (split; [reflexivity | constructor]).
  - unfold on_keyboard_input, try_catch, bind, emit, modify, throw.
    destruct t as [t | ]; cbn;
      [ | split; [reflexivity | ]; exists []; eexists;
          split; [reflexivity | constructor]].
    destruct (negb (str_truthy t) || (String.length (trim t) =? 0)%nat);
      cbn.
    { split; [reflexivity | ]. exists []. eexists.
      split; [reflexivity | constructor]. }
    pose proof (sendKeys_outbox t s) as H. unfold outbox_kept in H.
    destruct (sendKeys t s) as [[res | e] s1];
      cbn in *; (split; [reflexivity | ]); exists [];
      eexists; rewrite H; (split; [reflexivity | constructor]).
  - destruct s as [c [pr st so si iv] ts n cs w tr ob].
    destruct st, iv as [h | ], pr as [p | ];
      (split; [reflexivity | ]);
      (exists [StreamEvent "stream-stopped";
               StreamEvent "stream-started"]
       + exists [StreamEvent "stream-started"]);
      eexists;
      (split; [cbn; rewrite <- ?app_assoc; reflexivity
              | repeat constructor]).
  - destruct s as [c [pr st so si iv] ts n cs w tr ob].
    destruct iv as [h | ], pr as [p | ];
      (split; [reflexivity | ]);
      exists [StreamEvent "stream-stopped"]; eexists;
      (split; [cbn; rewrite <- app_assoc; reflexivity
              | repeat constructor]).
Qed.

End Requests.

Section Streaming.

Context {E : Env}.

Lemma checkXcode_outcome s :
  (fst (checkXcode s) = Ok true \/ fst (checkXcode s) = Ok false)
  /\ wdaClient (snd (checkXcode s)) = wdaClient s
  /\ trace (snd (checkXcode s))
     = (trace s ++ [EvSpawn "xcodebuild" ["-version"]])%list.
Proof.
  pose proof (runCommand_trace ["version"] s) as [Ht Hw].
  change (EvSpawn _ _) with (EvSpawn "xcodebuild" ["-version"]) in Ht.
  unfold checkXcode, try_catch, bind, ret.
  destruct (runCommand ["version"] s) as [[out | e] s1]; cbn in *; auto.
Qed.

(** X9.  [start-simulator] reports [started] only with the session
    connected to the device it names.  Otherwise it reports one error:
    that Xcode is not available, the session then being as before and only
    the version command having run; that no simulator was found, the
    connection then being as before; or the error of the connection
    attempt, the session then being not connected. *)
Theorem start_simulator_reports_the_session s k :
  let s' := serve s (StartSimulator k) in
  (exists dev,
      outbox s'
      = (outbox s
         ++ [ToClient k (simulator_status "started" (Some dev))])%list
      /\ isConnected (wdaClient s') = true
      /\ currentDevice (wdaClient s') = Some dev)
  \/ (exists e,
        outbox s'
        = (outbox s
           ++ [ToClient k (error_msg "Failed to start simulator" e)])%list
        /\ ((e = "Xcode tools not available"
             /\ wdaClient s' = wdaClient s
             /\ trace s'
                = (trace s ++ [EvSpawn "xcodebuild" ["-version"]])%list)
            \/ (e = "No iOS simulators found"
                /\ isConnected (wdaClient s') = isConnected (wdaClient s)
                /\ currentDevice (wdaClient s')
                   = currentDevice (wdaClient s))
            \/ (isConnected (wdaClient s') = false
                /\ currentDevice (wdaClient s') = None))).
Proof.
  unfold serve, handle_request, on_start_simulator, try_catch, bind, emit,
         modify, throw.
  destruct (checkXcode_outcome s) as (Hc & Hw1 & Ht1).
  pose proof (checkXcode_outbox s) as Ho1. unfold outbox_kept in Ho1.
  destruct (checkXcode s) as [[[ | ] | e] s1]; cbn in *.
  - destruct (listDevices_outcome s1) as (_ & Hi & Hd & _).
    pose proof (listDevices_outbox s1) as Ho2. unfold outbox_kept in Ho2.
    destruct (listDevices_trace s1) as [_ [ds0 Hok]].
    destruct (listDevices s1) as [[ds | e] s2]; cbn in *;
      [ | discriminate].
    destruct ds as [ | d0 ds]; cbn.
    + right. eexists. rewrite Ho2, Ho1. split; [reflexivity | ].
      right; left. rewrite Hi, Hd, Hw1. auto.
    + pose proof (connectToDevice_post None s2) as Hp.
      pose proof (connectToDevice_outbox None s2) as Ho3.
      unfold outbox_kept in Ho3.
      destruct (connectToDevice None s2) as [[dev | e] s3]; cbn in *.
      * left. exists dev. rewrite Ho3, Ho2, Ho1. tauto.
      * right. exists e. rewrite Ho3, Ho2, Ho1. tauto.
  - right. eexists. rewrite Ho1. split; [reflexivity | ]. left. auto.
  - destruct Hc; discriminate.
Qed.

Lemma serve_start_stream k s :
  stream_consistent s ->
  stream_polling (serve s (StartStream k)) k (next_handle s).
Proof.
  intro H. destruct (startStream_timers k None s H) as (Ht & _ & Hf).
  unfold serve, handle_request, on_start_stream, try_catch, bind, emit,
         modify, stream_polling.
  destruct (startStream k None s) as [[[] | e] s1]; cbn in *; auto.
Qed.

Lemma serve_stop_stream k s :
  stream_consistent s -> stream_idle (serve s (StopStream k)).
Proof.
  intro H. destruct (stopStream_timers s H) as (Ht & _ & Hf).
  unfold serve, handle_request, on_stop_stream, try_catch, bind, emit,
         modify, stream_idle.
  destruct (stopStream s) as [[[] | e] s1]; cbn in *; auto.
Qed.

Lemma stream_shape_untouched s s' :
  stream_untouched s s' ->
  stream_idle s \/ (exists k h, stream_polling s k h) ->
  stream_idle s' \/ (exists k h, stream_polling s' k h).
Proof.
  intros (Hf & Ht & _). unfold stream_idle, stream_polling.
  now rewrite Hf, Ht.
Qed.

Lemma reachable_stream_shape w clients s :
  reachable w clients s ->
  stream_idle s \/ exists k h, stream_polling s k h.
Proof.
  induction 1 as [ | s r Hs IH].
  - left. split; reflexivity.
  - pose proof (reachable_consistent _ _ _ Hs) as Hc.
    pose proof (other_requests_stream r) as Hr.
    destruct r as [k | k | k d | k d | k t | k | k | ];
      try exact (stream_shape_untouched s _ (Hr s) IH).
    + right. exists k, (next_handle s). now apply serve_start_stream.
    + left. now apply serve_stop_stream.
Qed.

(** X10.  The running flag tells the truth.  In every state the server
    reaches the stream object is either as it was created, with no timer
    armed, or it is streaming to one client with exactly one timer, of
    100 ms, armed. *)
Theorem stream_is_idle_or_polling w clients s :
  reachable w clients s ->
  stream_idle s \/ exists k h, stream_polling s k h.
Proof. exact (reachable_stream_shape w clients s). Qed.

(** X11.  [stop-stream] leaves nothing behind: from every state the
    server reaches it disarms the timer and puts the stream object back
    to its initial values, reports [stopped] to the requester and leaves
    the session alone. *)
Theorem stop_stream_resets_the_stream w clients s k :
  reachable w clients s ->
  let s' := serve s (StopStream k) in
  stream_idle s'
  /\ wdaClient s' = wdaClient s
  /\ trace s' = trace s
  /\ outbox s'
     = (outbox s ++ [StreamEvent "stream-stopped";
                     ToClient k (stream_status "stopped")])%list.
Proof.
  intro Hs. pose proof (reachable_consistent _ _ _ Hs) as Hc.
  split; [now apply serve_stop_stream | ].
  destruct (reachable_stream_shape _ _ _ Hs)
    as [[Hf Ht] | (k' & h & Hf & Ht)];
    destruct s as [c f ts n cs w0 tr ob]; cbn in Hf, Ht; subst f ts;
    cbn; rewrite <- ?app_assoc; auto.
Qed.

(** X12.  A tick never queues: in every state the server reaches it
    sends one screenshot request to the client of the stream when that
    client is connected, and nothing when no stream is running or the
    client is gone; the stream, the session and the operating system are
    untouched. *)
Theorem tick_requests_at_most_one_frame w clients s :
  reachable w clients s ->
  let s' := serve s Tick in
  stream_untouched s s'
  /\ wdaClient s' = wdaClient s
  /\ trace s' = trace s
  /\ outbox s'
     = (outbox s
        ++ match currentSocket (ffmpegStream s) with
           | Some k => if existsb (Nat.eqb k) (connected s)
                       then [ToClient k request_screenshot] else []
           | None => []
           end)%list.
Proof.
  intro Hs.
  destruct (reachable_stream_shape _ _ _ Hs)
    as [[Hf Ht] | (k' & h & Hf & Ht)];
    destruct s as [c f ts n cs w0 tr ob]; cbn in Hf, Ht; subst f ts;
    unfold serve, handle_request, screenshot_tick, bind, get, ret, emit,
           modify, stream_untouched;
    cbn; [ | destruct (existsb (Nat.eqb k') cs); cbn];
    rewrite ?app_nil_r; repeat split.
Qed.

(** X13.  The shutdown handler leaves nothing running: from every state
    the server reaches, no timer is armed, the stream object is reset and
    the session is not connected once it has run. *)
Theorem shutdown_stops_stream_and_session w clients s :
  reachable w clients s ->
  let s' := snd (on_sigint s) in
  stream_idle s'
  /\ isConnected (wdaClient s') = false
  /\ currentDevice (wdaClient s') = None.
Proof.
  intro Hs.
  destruct (reachable_stream_shape _ _ _ Hs)
    as [[Hf Ht] | (k' & h & Hf & Ht)];
    destruct s as [c f ts n cs w0 tr ob]; cbn in Hf, Ht; subst f ts;
    cbn; rewrite ?Nat.eqb_refl; repeat split.
Qed.

(** X14.  [updateStreamQuality] of the polling stream changes nothing,
    the cadence included.  In every state the server reaches it hands the
    quality back exactly when a stream is polling and throws that no
    stream is active exactly when the stream is idle. *)
Theorem polling_quality_is_fixed w clients s quality :
  reachable w clients s ->
  snd (updateStreamQuality quality s) = s
  /\ (fst (updateStreamQuality quality s) = Ok quality
      <-> exists k h, stream_polling s k h)
  /\ (fst (updateStreamQuality quality s)
      = Throw "No active stream to update"
      <-> stream_idle s).
Proof.
  intro Hs. unfold updateStreamQuality, bind, get, throw, ret.
  destruct (reachable_stream_shape _ _ _ Hs)
    as [[Hf Ht] | (k' & h & Hf & Ht)]; rewrite Hf; cbn.
  - split; [reflexivity | ]. split; split; try discriminate.
    + intros (k & h & Hp & _). rewrite Hf in Hp. discriminate.
    + intros _. now split.
    + reflexivity.
  - split; [reflexivity | ]. split; split; try discriminate.
    + intros _. now exists k', h.
    + reflexivity.
    + intros [Hi _]. rewrite Hf in Hi. discriminate.
Qed.

End Streaming.

Section PeerStream.

Import WebRTC.

Ltac shapes H :=
  destruct H as (Hl & Ft & Fp & [(? & ? & ?) | [(t0 & ? & ? & ? & ?)
                                               | (k0 & x0 & ? & ? & ? & ?)]]).

(** X15.  After a start of the [WebRTCStream] has resolved, exactly the
    back end of the current mode is running: in screenshot mode one timer
    of 100 ms and no peer, in peer mode one peer for the socket and no
    timer; the object is marked streaming. *)
Theorem rtc_start_runs_the_current_mode p k sim :
  WebRTC.reachable p ->
  let r := startStream k sim None p in
  fst r = Ok tt
  /\ isStreaming (stream (snd r)) = true
  /\ simulatorId (stream (snd r)) = sim
  /\ if screenshotMode (stream p)
     then timers (snd r) = [{| handle := next_handle p; period := 100 |}]
          /\ live_peers (snd r) = []
     else timers (snd r) = []
          /\ live_peers (snd r) = [(k, next_peer p)]
          /\ peers (stream (snd r)) = [(k, next_peer p)].
Proof.
  intro Hp. apply WebRTCFacts.rtc_reachable_consistent in Hp.
  destruct p as [[ps st si md iv] ts n lp np ev].
  unfold consistent in Hp; destruct st, md; simpl in *; shapes Hp;
    subst; unfold startStream, stopStream;
    simpl; rewrite ?Nat.eqb_refl; try discriminate; simpl;
    repeat split.
Qed.

(** X16.  When the peer connection cannot be created the start throws
    the error of the constructor, and the object stays marked streaming
    although nothing is running: what ran before has been stopped and no
    start event is emitted. *)
Theorem rtc_failed_start_leaves_the_flag_set p k sim message :
  WebRTC.reachable p ->
  screenshotMode (stream p) = false ->
  let r := startStream k sim (Some message) p in
  fst r = Throw message
  /\ isStreaming (stream (snd r)) = true
  /\ running_backends (snd r) = 0%nat
  /\ events (snd r)
     = (events p ++ if isStreaming (stream p) then ["stream-stopped"]
                    else [])%list.
Proof.
  intros Hp Hm. apply WebRTCFacts.rtc_reachable_consistent in Hp.
  destruct p as [[ps st si md iv] ts n lp np ev].
  simpl in Hm. subst md.
  unfold consistent in Hp; destruct st; simpl in *; shapes Hp;
    subst; unfold startStream, stopStream, running_backends;
    simpl; rewrite ?Nat.eqb_refl, ?app_nil_r; try discriminate; simpl;
    repeat split.
Qed.

(** X17.  [stopStream] of the [WebRTCStream] leaves nothing running: no
    timer, no live peer, an empty peer map and the flag cleared; the mode
    is kept. *)
Theorem rtc_stop_leaves_nothing_running p :
  WebRTC.reachable p ->
  let p' := stopStream p in
  timers p' = [] /\ live_peers p' = [] /\ peers (stream p') = []
  /\ isStreaming (stream p') = false
  /\ screenshotInterval (stream p') = None
  /\ screenshotMode (stream p') = screenshotMode (stream p)
  /\ events p' = (events p ++ ["stream-stopped"])%list.
Proof.
  intro Hp. apply WebRTCFacts.rtc_reachable_consistent in Hp.
  destruct p as [[ps st si md iv] ts n lp np ev].
  unfold consistent in Hp; simpl in *; shapes Hp;
    subst; unfold stopStream;
    simpl; rewrite ?Nat.eqb_refl; simpl; repeat split.
Qed.


(** X19.  [handleClientDisconnect] destroys the peer of the socket and
    nothing else: afterwards the socket has no peer, live or in the map,
    every other live peer is still there, and the timer and the streaming
    flag are as before. *)
Theorem rtc_disconnect_destroys_the_peer_of_the_socket p k :
  WebRTC.reachable p ->
  let p' := handleClientDisconnect k p in
  get_peer k p' = None
  /\ (forall x, ~ In (k, x) (live_peers p'))
  /\ (forall k' x, k' <> k -> In (k', x) (live_peers p) ->
                   In (k', x) (live_peers p'))
  /\ timers p' = timers p
  /\ isStreaming (stream p') = isStreaming (stream p).
Proof.
  intro Hp. apply WebRTCFacts.rtc_reachable_consistent in Hp.
  destruct p as [[ps st si md iv] ts n lp np ev].
  unfold consistent in Hp; simpl in *; shapes Hp; subst;
    unfold handleClientDisconnect, get_peer; simpl;
    try (destruct (Nat.eqb k0 k) eqn:Hk); simpl;
    rewrite ?Hk, ?Nat.eqb_refl; simpl; rewrite ?Hk; simpl;
    repeat split; auto;
    try (intros x [Hx | []]; injection Hx as -> ->;
         rewrite Nat.eqb_refl in Hk; discriminate);
    try (intros k' x Hne [Hx | []]; injection Hx as -> ->;
         apply Nat.eqb_eq in Hk; congruence).
Qed.

End PeerStream.

Section PointerHandling.

Import Frontend.








End PointerHandling.

Section Gestures.

Context {E : Env}.

Import Frontend.




(** X23.  The two JSON end points never answer 500.  [GET
    /api/simulators] answers 200 with the parsed devices in the order of
    the listing, each marked booted exactly when its state is Booted, and
    with the empty list when the listing command fails; [GET
    /api/test-wda] answers 200 and reports success exactly when the
    version command exits with code 0. *)
Theorem json_end_points_answer_200 s :
  fst (api_simulators s)
  = Ok (Status200
          (map to_simulator
             match succeeded (listing_outcome s) with
             | Some out => parse_devices (trim out)
             | None => []
             end))
  /\ (forall d, sim_state (to_simulator d) = "booted"
                <-> status d = "Booted")
  /\ exists report,
       fst (api_test_wda s) = Ok (Status200 report)
       /\ (report_status report = "success"
           <-> fst (checkXcode s) = Ok true).
Proof.
  split; [ | split].
  - destruct (listDevices_outcome s) as (_ & _ & _ & H).
    unfold api_simulators, try_catch, bind, ret.
    destruct (listDevices s) as [[ds | e] s1]; cbn in *;
      destruct (succeeded (listing_outcome s)) as [out | ];
      destruct H as [H _]; try discriminate; now injection H as ->.
  - intro d. unfold to_simulator. cbn [sim_state].
    destruct (String.eqb (status d) "Booted") eqn:Hs.
    + apply String.eqb_eq in Hs. tauto.
    + apply String.eqb_neq in Hs. split; [discriminate | tauto].
  - destruct (checkXcode_outcome s) as (Hc & _).
    unfold api_test_wda, try_catch, bind, ret.
    destruct (checkXcode s) as [[[ | ] | e] s1]; cbn in *;
      try (destruct Hc; discriminate).
    + destruct (listDevices_trace s1) as [_ [ds Hok]].
      destruct (listDevices s1) as [[ds' | e] s2]; cbn in *;
        [ | discriminate].
      eexists. split; [reflexivity | ]. cbn. tauto.
    + destruct (listDevices_trace s1) as [_ [ds Hok]].
      destruct (listDevices s1) as [[ds' | e] s2]; cbn in *;
        [ | discriminate].
      eexists. split; [reflexivity | ]. cbn.
      split; discriminate.
Qed.

End Gestures.

Section EndToEnd.

Context {E : Env}.

Import Frontend.




End EndToEnd.

(** ** Instances on the scenarios *)



Lemma swipe_throws_iff_the_drag_threw_too_witness :
  exists e1 e2 e3 (s1 s2 : @Sys env_failing),
    swipe_devicectl (1 # 1) (1 # 1) (1 # 1) (90 # 1) connected_failing
    = (Throw e1, s1)
    /\ osascript (swipe_script_clicks (E:=env_failing)
                    (1 # 1) (1 # 1) (1 # 1) (90 # 1)) s1
       = (Throw e2, s2)
    /\ osascript (swipe_script_drag (E:=env_failing)
                    (1 # 1) (1 # 1) (1 # 1) (90 # 1)) s2
       = (Throw e3,
          snd (swipe (1 # 1) (1 # 1) (1 # 1) (90 # 1) (1000 # 1)
                     connected_failing))
    /\ "Failed to swipe from (1, 1) to (1, 90): Failed to swipe from (1, 1) to (1, 90): e4"
       = swipe_failure (E:=env_failing) (1 # 1) (1 # 1) (1 # 1) (90 # 1)
           (swipe_failure (E:=env_failing) (1 # 1) (1 # 1) (1 # 1) (90 # 1)
              e3).
Proof.
  refine (proj1 (swipe_throws_iff_the_drag_threw_too (E:=env_failing)
                   connected_failing (1 # 1) (1 # 1) (1 # 1) (90 # 1)
                   (1000 # 1) _ _ _) _).
  - vm_compute. reflexivity.
  - vm_compute. reflexivity.
Defined.


Lemma every_request_is_answered_once_witness :
  fst (handle_request (Tap 1%nat tap_minus5_10) connected_booted) = Ok tt
  /\ exists events m,
       outbox (serve connected_booted (Tap 1%nat tap_minus5_10))
       = (outbox connected_booted ++ events ++ [ToClient 1%nat m])%list
       /\ Forall is_stream_event events.
Proof.
  apply (every_request_is_answered_once (E:=env_booted) connected_booted
           (Tap 1%nat tap_minus5_10) 1%nat).
  reflexivity.
Defined.

Lemma stream_is_idle_or_polling_witness :
  stream_idle (serve idle_booted (StartStream 1%nat))
  \/ exists k h, stream_polling (serve idle_booted (StartStream 1%nat)) k h.
Proof.
  exact (stream_is_idle_or_polling (E:=env_booted) 0%nat [1%nat] _
           (reach_serve _ _ _ (StartStream 1%nat) (reach_boot _ _))).
Defined.

Lemma stop_stream_resets_the_stream_witness :
  let s := serve idle_booted (StartStream 1%nat) in
  let s' := serve s (StopStream 1%nat) in
  stream_idle s'
  /\ wdaClient s' = wdaClient s
  /\ trace s' = trace s
  /\ outbox s'
     = (outbox s ++ [StreamEvent "stream-stopped";
                     ToClient 1%nat (stream_status "stopped")])%list.
Proof.
  exact (stop_stream_resets_the_stream (E:=env_booted) 0%nat [1%nat] _ 1%nat
           (reach_serve _ _ _ (StartStream 1%nat) (reach_boot _ _))).
Defined.

Lemma tick_requests_at_most_one_frame_witness :
  let s := serve idle_booted (StartStream 1%nat) in
  let s' := serve s Tick in
  stream_untouched s s'
  /\ wdaClient s' = wdaClient s
  /\ trace s' = trace s
  /\ outbox s' = (outbox s ++ [ToClient 1%nat request_screenshot])%list.
Proof.
  exact (tick_requests_at_most_one_frame (E:=env_booted) 0%nat [1%nat] _
           (reach_serve _ _ _ (StartStream 1%nat) (reach_boot _ _))).
Defined.

Lemma shutdown_stops_stream_and_session_witness :
  let s := serve (serve idle_booted (StartSimulator 1%nat))
                 (StartStream 1%nat) in
  let s' := snd (on_sigint s) in
  stream_idle s'
  /\ isConnected (wdaClient s') = false
  /\ currentDevice (wdaClient s') = None.
Proof.
  exact (shutdown_stops_stream_and_session (E:=env_booted) 0%nat [1%nat] _
           (reach_serve _ _ _ (StartStream 1%nat)
              (reach_serve _ _ _ (StartSimulator 1%nat) (reach_boot _ _)))).
Defined.

Lemma polling_quality_is_fixed_witness :
  let s := serve idle_booted (StartStream 1%nat) in
  snd (updateStreamQuality "high" s) = s
  /\ (fst (updateStreamQuality "high" s) = Ok "high"
      <-> exists k h, stream_polling s k h)
  /\ (fst (updateStreamQuality "high" s) = Throw "No active stream to update"
      <-> stream_idle s).
Proof.
  exact (polling_quality_is_fixed (E:=env_booted) 0%nat [1%nat] _ "high"
           (reach_serve _ _ _ (StartStream 1%nat) (reach_boot _ _))).
Defined.

Lemma rtc_start_runs_the_current_mode_witness :
  let r := WebRTC.startStream 2%nat None None switched_stream in
  fst r = Ok tt
  /\ WebRTC.isStreaming (WebRTC.stream (snd r)) = true
  /\ WebRTC.simulatorId (WebRTC.stream (snd r)) = None
  /\ WebRTC.timers (snd r)
     = [{| handle := WebRTC.next_handle switched_stream;
           period := 100 |}]
  /\ WebRTC.live_peers (snd r) = [].
Proof.
  exact (rtc_start_runs_the_current_mode switched_stream 2%nat None
           (WebRTC.reach_step _ (WebRTC.Start 1%nat None None)
              (WebRTC.reach_step _ WebRTC.EnableScreenshot
                 (WebRTC.reach_step _ (WebRTC.Start 1%nat None None)
                    WebRTC.reach_init)))).
Defined.

Lemma rtc_failed_start_leaves_the_flag_set_witness :
  let p := WebRTC.step WebRTC.init (WebRTC.Start 1%nat None None) in
  let r := WebRTC.startStream 1%nat None (Some "no wrtc") p in
  fst r = Throw "no wrtc"
  /\ WebRTC.isStreaming (WebRTC.stream (snd r)) = true
  /\ WebRTC.running_backends (snd r) = 0%nat
  /\ WebRTC.events (snd r) = (WebRTC.events p ++ ["stream-stopped"])%list.
Proof.
  exact (rtc_failed_start_leaves_the_flag_set _ 1%nat None "no wrtc"
           (WebRTC.reach_step _ (WebRTC.Start 1%nat None None)
              WebRTC.reach_init)
           eq_refl).
Defined.

Lemma rtc_stop_leaves_nothing_running_witness :
  let p' := WebRTC.stopStream switched_stream in
  WebRTC.timers p' = [] /\ WebRTC.live_peers p' = []
  /\ WebRTC.peers (WebRTC.stream p') = []
  /\ WebRTC.isStreaming (WebRTC.stream p') = false
  /\ WebRTC.screenshotInterval (WebRTC.stream p') = None
  /\ WebRTC.screenshotMode (WebRTC.stream p') = true
  /\ WebRTC.events p'
     = (WebRTC.events switched_stream ++ ["stream-stopped"])%list.
Proof.
  exact (rtc_stop_leaves_nothing_running switched_stream
           (WebRTC.reach_step _ (WebRTC.Start 1%nat None None)
              (WebRTC.reach_step _ WebRTC.EnableScreenshot
                 (WebRTC.reach_step _ (WebRTC.Start 1%nat None None)
                    WebRTC.reach_init)))).
Defined.


Lemma rtc_disconnect_destroys_the_peer_of_the_socket_witness :
  let p := WebRTC.step WebRTC.init (WebRTC.Start 1%nat None None) in
  let p' := WebRTC.handleClientDisconnect 1%nat p in
  WebRTC.get_peer 1%nat p' = None
  /\ WebRTC.timers p' = WebRTC.timers p.
Proof.
  pose proof
    (rtc_disconnect_destroys_the_peer_of_the_socket _ 1%nat
       (WebRTC.reach_step _ (WebRTC.Start 1%nat None None)
          WebRTC.reach_init)) as (H1 & _ & _ & H2 & _).
  split; [exact H1 | exact H2].
Defined.




